(** * sapcli: the ADT object / session protocol layer ([sap/adt/__init__.py])

    A shallow embedding of the HTTP connection with its lazily created
    session, of the lock / unlock / activate protocol of ADT objects, of
    the object type descriptors and of the metaclass that records the
    order of member declarations; followed by the properties of that code. *)

From Stdlib Require Import Ascii ZArith Bool Lia.
From stdpp Require Import base option list gmap strings.

Set Warnings "-register-all".

Open Scope Z_scope.

(** ** Python strings *)

Module Str.

(** The characters that cannot be written inside a string literal. *)
Definition nl : string := String "010"%char EmptyString.
Definition dq : string := String "034"%char EmptyString.

Definition is_newline (c : ascii) : bool :=
  if decide (c = "010"%char) then true else false.

(** [s.startswith(p)] *)
Fixpoint startswith (p s : string) : bool :=
  match p, s with
  | EmptyString, _ => true
  | String a p', String b s' => if decide (a = b) then startswith p' s' else false
  | String _ _, EmptyString => false
  end.

(** [sub in s] on [str] *)
Fixpoint str_in (sub s : string) : bool :=
  if startswith sub s then true
  else match s with
       | EmptyString => false
       | String _ t => str_in sub t
       end.

(** The number of positions of [s] at which [sub] starts. *)
Fixpoint occurrences (sub s : string) : nat :=
  match s with
  | EmptyString => if startswith sub s then 1%nat else 0%nat
  | String _ t => ((if startswith sub s then 1 else 0) + occurrences sub t)%nat
  end.

Definition upper_char (c : ascii) : ascii :=
  let n := nat_of_ascii c in
  if (97 <=? n)%nat && (n <=? 122)%nat then ascii_of_nat (n - 32) else c.

Definition lower_char (c : ascii) : ascii :=
  let n := nat_of_ascii c in
  if (65 <=? n)%nat && (n <=? 90)%nat then ascii_of_nat (n + 32) else c.

Fixpoint map_chars (f : ascii -> ascii) (s : string) : string :=
  match s with
  | EmptyString => EmptyString
  | String c t => String (f c) (map_chars f t)
  end.

(** [s.upper()] and [s.lower()] on ASCII text: the letters a-z and A-Z
    are mapped and every other character is left as it is. Python maps
    by Unicode; the methods, names and URLs at hand are ASCII, and
    nothing below rests on how other characters are mapped. *)
Definition upper : string -> string := map_chars upper_char.
Definition lower : string -> string := map_chars lower_char.

(** [sep.join(parts)] *)
Fixpoint join (sep : string) (parts : list string) : string :=
  match parts with
  | [] => EmptyString
  | [p] => p
  | p :: rest => p +:+ sep +:+ join sep rest
  end.

(** No line break in [s]: every character is one that [.] matches. *)
Fixpoint no_newline (s : string) : bool :=
  match s with
  | EmptyString => true
  | String c t => negb (is_newline c) && no_newline t
  end.

End Str.

(** ** HTTP values

    Headers are looked up under the name the code spells. *)

Record Response := mkResponse {
  text : string;
  status_code : Z;
  headers : gmap string string
}.

Record HTTPBasicAuth := mkAuth { username : string; password : string }.

(** What [session.prepare_request] hands to [session.send]. *)
Record PreparedRequest := mkPrepared {
  p_method : string;
  p_url : string;
  p_params : option (list (string * string));
  p_headers : gmap string string;
  p_body : option string;
  p_auth : option HTTPBasicAuth
}.

(** ** Exceptions *)

Inductive exn :=
| SAPCliError (msg : string)
| HTTPRequestError (req : PreparedRequest) (res : Response)
| KeyError (key : string)
| TypeError (msg : string)
| StopIteration
| RequestException (msg : string).

(** ** Computations over a mutable state that may raise

    A call leaves a state behind also when it raises: what was assigned
    before the [raise] stays assigned. *)

Definition M (S A : Type) : Type := S -> S * (exn + A).

Definition ret {S A} (a : A) : M S A := fun s => (s, inr a).
Definition raise {S A} (e : exn) : M S A := fun s => (s, inl e).
Definition bind {S A B} (m : M S A) (k : A -> M S B) : M S B :=
  fun s => match m s with
           | (s', inr a) => k a s'
           | (s', inl e) => (s', inl e)
           end.
Definition get {S} : M S S := fun s => (s, inr s).
Definition put {S} (s : S) : M S unit := fun _ => (s, inr tt).
Definition modify {S} (f : S -> S) : M S unit := fun s => (f s, inr tt).

Notation "x <- m ;; k" := (bind m (fun x => k))
  (at level 100, m at next level, right associativity).
Notation "m ;;; k" := (bind m (fun _ => k))
  (at level 100, right associativity).

(** Run a computation on the second component of a pair of states. *)
Definition on_snd {S1 S2 A} (m : M S2 A) : M (S1 * S2) A :=
  fun '(s1, s2) => let '(s2', r) := m s2 in ((s1, s2'), r).

(** ** [ADTObjectType] *)

Record ADTObjectType := mkObjType {
  code : string;
  basepath : string;
  xmlnamespace : string * string;
  mimetype : string;
  _typeuris : gmap string string;
  xmlname : string
}.

Definition get_uri_for_type (self : ADTObjectType) (mime : string) : exn + string :=
  match _typeuris self !! mime with
  | Some u => inr ("/" +:+ u)
  | None => inl (SAPCliError "Object {type} does not support plain 'text' format")
  end.

Module Program.
Definition OBJTYPE : ADTObjectType :=
  mkObjType "PROG/P" "programs/programs"
            ("program", "http://www.sap.com/adt/programs/programs")
            "application/vnd.sap.adt.programs.programs.v2+xml"
            {[ "text/plain" := "source/main" ]}
            "abapProgram".
End Program.

Module Class.
Definition OBJTYPE : ADTObjectType :=
  mkObjType "CLAS/OC" "oo/classes"
            ("class", "http://www.sap.com/adt/oo/classes")
            "application/vnd.sap.adt.oo.classes.v2+xml"
            {[ "text/plain" := "source/main" ]}
            "abapClass".
End Class.

Module Package.
Definition OBJTYPE : ADTObjectType :=
  mkObjType "DEVC/K" "packages"
            ("pak", "http://www.sap.com/adt/packages")
            "application/vnd.sap.adt.packages.v1+xml"
            ∅
            "package".
End Package.

(** ** [Connection]: the HTTP session and its bootstrap *)

(** A [requests.Session]: the session objects of one run are told apart by
    [sess_id]. *)
Record Session := mkSession {
  sess_id : nat;
  sess_auth : option HTTPBasicAuth;
  sess_headers : gmap string string
}.

Record Connection := mkConnection {
  _adt_uri : string;
  _base_url : string;
  _query_args : string;
  _user : string;
  _auth : HTTPBasicAuth;
  _session : option Session
}.

Definition Connection_init (host client user pass : string)
    (port : option string) (ssl : bool) : Connection :=
  let '(protocol, port) :=
    if ssl then ("https", default "443" port) else ("http", default "80" port) in
  let adt_uri := "sap/bc/adt" in
  {| _adt_uri := adt_uri;
     _base_url := protocol +:+ "://" +:+ host +:+ ":" +:+ port +:+ "/" +:+ adt_uri;
     _query_args := "sap-client=" +:+ client +:+ "&saml2=disabled";
     _user := user;
     _auth := mkAuth user pass;
     _session := None |}.

Definition _build_adt_url (self : Connection) (adt_uri : string) : string :=
  _base_url self +:+ "/" +:+ adt_uri +:+ "?" +:+ _query_args self.

Definition with_session (self : Connection) (s : option Session) : Connection :=
  {| _adt_uri := _adt_uri self; _base_url := _base_url self;
     _query_args := _query_args self; _user := _user self;
     _auth := _auth self; _session := s |}.

(** [session.prepare_request(requests.Request(...))]: the headers of the
    request are laid over the headers of the session, the authentication
    is the session's. *)
Definition prepare_request (s : Session) (method url : string)
    (params : option (list (string * string)))
    (hdrs : option (gmap string string)) (body : option string) : PreparedRequest :=
  {| p_method := method; p_url := url; p_params := params;
     p_headers := default ∅ hdrs ∪ sess_headers s;
     p_body := body; p_auth := sess_auth s |}.

(** The world outside the program: the server behind the transport, the
    requests sent to it so far, and how many sessions were opened. *)
Record Net (Server : Type) := mkNet {
  net_server : Server;
  net_sent : list PreparedRequest;
  net_sessions : nat
}.
Arguments mkNet {Server}.
Arguments net_server {Server}.
Arguments net_sent {Server}.
Arguments net_sessions {Server}.

Section Transport.

(** The transport answers a request with a response, or fails with a
    message ([requests] then raises); the server may change by it. *)
Context {Server : Type}.
Variable transmit : Server -> PreparedRequest -> Server * (string + Response).
(** The headers a new [requests.Session] starts with. *)
Variable default_headers : gmap string string.

(** [requests.Session()] *)
Definition Session_new : M (Net Server) Session :=
  fun n => (mkNet (net_server n) (net_sent n) (S (net_sessions n)),
            inr (mkSession (net_sessions n) None default_headers)).

(** [session.send(req)] *)
Definition send (req : PreparedRequest) : M (Net Server) Response :=
  fun n =>
    let '(srv, r) := transmit (net_server n) req in
    (mkNet srv (net_sent n ++ [req]) (net_sessions n),
     match r with
     | inl msg => inl (RequestException msg)
     | inr res => inr res
     end).

Definition _execute_with_session (session : Session) (method url : string)
    (params : option (list (string * string)))
    (hdrs : option (gmap string string)) (body : option string)
  : M (Net Server) Response :=
  let req := prepare_request session (Str.upper method) url params hdrs body in
  res <- send req ;;
  if 400 <=? status_code res then raise (HTTPRequestError req res)
  else ret res.

Definition set_session (s : Session) : M (Connection * Net Server) unit :=
  modify (fun '(c, n) => (with_session c (Some s), n)).

(** The session is written into the connection before the discovery
    request is made (lines 104-105), and once more with the token
    (line 111, an update of the headers of that same session). *)
Definition _get_session : M (Connection * Net Server) Session :=
  st <- get ;;
  let self := fst st in
  match _session self with
  | None =>
      s0 <- on_snd Session_new ;;
      let s := mkSession (sess_id s0) (Some (_auth self)) (sess_headers s0) in
      set_session s ;;;
      let url := _build_adt_url self "core/discovery" in
      response <- on_snd (_execute_with_session s "GET" url None
                            (Some {[ "x-csrf-token" := "Fetch" ]}) None) ;;
      match headers response !! "x-csrf-token" with
      | None => raise (KeyError "x-csrf-token")
      | Some tok =>
          let s' := mkSession (sess_id s) (sess_auth s)
                              ({[ "x-csrf-token" := tok ]} ∪ sess_headers s) in
          set_session s' ;;;
          ret s'
      end
  | Some s => ret s
  end.

Definition execute (method adt_uri : string)
    (params : option (list (string * string)))
    (hdrs : option (gmap string string)) (body : option string)
  : M (Connection * Net Server) Response :=
  session <- _get_session ;;
  st <- get ;;
  let url := _build_adt_url (fst st) adt_uri in
  on_snd (_execute_with_session session method url params hdrs body).

Definition get_text (relativeuri : string) : M (Connection * Net Server) string :=
  res <- execute "GET" relativeuri None (Some {[ "Accept" := "text/plain" ]}) None ;;
  ret (text res).

(** A series of [execute] calls on one connection, whatever each of
    them returns or raises. *)
Record Call := mkCall {
  c_method : string;
  c_uri : string;
  c_params : option (list (string * string));
  c_headers : option (gmap string string);
  c_body : option string
}.

Definition run_call (st : Connection * Net Server) (c : Call) : Connection * Net Server :=
  fst (execute (c_method c) (c_uri c) (c_params c) (c_headers c) (c_body c) st).

Definition run_calls (calls : list Call) (st : Connection * Net Server)
  : Connection * Net Server :=
  foldl run_call st calls.

(** The request a call makes once the session [s] is there. *)
Definition request_of (c : Connection) (s : Session) (call : Call) : PreparedRequest :=
  prepare_request s (Str.upper (c_method call)) (_build_adt_url c (c_uri call))
                  (c_params call) (c_headers call) (c_body call).

(** The request that opens a session. *)
Definition discovery_request (c : Connection) (id : nat) : PreparedRequest :=
  prepare_request (mkSession id (Some (_auth c)) default_headers) "GET"
                  (_build_adt_url c "core/discovery") None
                  (Some {[ "x-csrf-token" := "Fetch" ]}) None.

End Transport.

(** A server that answers from a script, one entry per request, and
    drops the line when the script is over. *)
Definition scripted (script : list (string + Response)) (_ : PreparedRequest)
  : list (string + Response) * (string + Response) :=
  match script with
  | [] => ([], inl "connection refused")
  | r :: rest => (rest, r)
  end.

(** ** What an ADT object asks of its connection

    [ADTObject] only calls [execute] and reads [uri] of the object it was
    given; the unit tests hand it the connection of [test/unit/mock.py]. *)

Class ConnectionLike (C : Type) := {
  conn_execute : string -> string -> option (list (string * string)) ->
                 option (gmap string string) -> option string -> M C Response;
  conn_uri : C -> string
}.

(** The connection of this module, over a transport. *)
Definition real_connection {Server : Type}
    (transmit : Server -> PreparedRequest -> Server * (string + Response))
    (default_headers : gmap string string)
  : ConnectionLike (Connection * Net Server) :=
  {| conn_execute := execute transmit default_headers;
     conn_uri := fun st => _adt_uri st.1 |}.

(** *** The connection of the unit tests ([test/unit/mock.py]) *)

Module Mock.

Record Request := mkRequest {
  method : string;
  adt_uri : string;
  req_headers : option (gmap string string);
  body : option string;
  params : option (list (string * string))
}.

Record Connection := mkConnection {
  execs : list Request;
  _resp_iter : list Response
}.

Definition ok_responses : list Response := [mkResponse EmptyString 200 ∅].

Definition Connection_init (responses : option (list Response)) : Connection :=
  mkConnection [] (default ok_responses responses).

Definition uri (self : Connection) : string := "sap/bc/adt".

Definition execute (method adt_uri : string)
    (params : option (list (string * string)))
    (hdrs : option (gmap string string)) (body : option string)
  : M Connection Response :=
  fun self =>
    let final_uri := "/" +:+ uri self +:+ "/" +:+ adt_uri in
    let execs' := execs self ++ [mkRequest method final_uri hdrs body params] in
    match _resp_iter self with
    | [] => (mkConnection execs' [], inl StopIteration)
    | r :: rest => (mkConnection execs' rest, inr r)
    end.

End Mock.

#[export] Instance mock_connection : ConnectionLike Mock.Connection :=
  {| conn_execute := Mock.execute; conn_uri := Mock.uri |}.

(** ** The lock handle pattern

    The pattern of [lock] (line 501) is, piece by piece: any characters,
    the opening tag, a group of any characters, the closing tag, any
    characters. [re.match] runs it as a backtracking matcher: the match
    starts at the first character, "any character" is any character but a
    line break, and a run of them takes as many as it can and gives them
    back one at a time while the rest of the pattern fails. *)

Module Re.

(** [.*] followed by [k], which gets what [.*] took and what is left. *)
Fixpoint dots {A} (s : string) (k : string -> string -> option A) : option A :=
  match s with
  | EmptyString => k EmptyString EmptyString
  | String c t =>
      if Str.is_newline c then k EmptyString s
      else match dots t (fun m r => k (String c m) r) with
           | Some x => Some x
           | None => k EmptyString s
           end
  end.

Fixpoint strip_prefix (p s : string) : option string :=
  match p, s with
  | EmptyString, _ => Some s
  | String a p', String b s' => if decide (a = b) then strip_prefix p' s' else None
  | String _ _, EmptyString => None
  end.

(** The literal [p] followed by [k]. *)
Definition lit {A} (p s : string) (k : string -> option A) : option A :=
  match strip_prefix p s with
  | Some r => k r
  | None => None
  end.

Definition OPEN : string := "<LOCK_HANDLE>".
Definition CLOSE : string := "</LOCK_HANDLE>".

(** Group 1 of the match, [None] when there is no match. *)
Definition match_lock_handle (text : string) : option string :=
  dots text (fun _ r1 =>
  lit OPEN r1 (fun r2 =>
  dots r2 (fun g r3 =>
  lit CLOSE r3 (fun r4 =>
  dots r4 (fun _ _ => Some g))))).

End Re.

(** ** [ADTCoreData] and [ADTObject] *)

Record Reference := mkReference { ref_name : option string }.

Record ADTCoreData := mkCoreData {
  _package : option string;
  _description : option string;
  _language : option string;
  _master_language : option string;
  _master_system : option string;
  _responsible : option string;
  _package_reference : Reference
}.

Definition ADTCoreData_init : ADTCoreData :=
  mkCoreData None None None None None None (mkReference None).

(** [objtype] is the [OBJTYPE] of the class of the object. *)
Record ADTObject := mkADTObject {
  objtype : ADTObjectType;
  _name : string;
  _metadata : ADTCoreData;
  _lock : option string
}.

Definition ADTObject_init (ot : ADTObjectType) (name : string)
    (metadata : option ADTCoreData) : ADTObject :=
  mkADTObject ot name (default ADTCoreData_init metadata) None.

Definition with_lock (self : ADTObject) (l : option string) : ADTObject :=
  mkADTObject (objtype self) (_name self) (_metadata self) l.

Definition obj_uri (self : ADTObject) : string :=
  basepath (objtype self) +:+ "/" +:+ Str.lower (_name self).

Definition LOCK_ACCESS_MODE_MODIFY : string := "MODIFY".

Definition lock_params (access_mode : string) : list (string * string) :=
  [("_action", "LOCK"); ("accessMode", access_mode)].

Definition unlock_params (lock_handle : string) : list (string * string) :=
  [("_action", "UNLOCK"); ("lockHandle", lock_handle)].

Definition activation_params : list (string * string) :=
  [("method", "activate"); ("preauditRequested", "true")].

Definition create_params (corrnr : option string) : option (list (string * string)) :=
  match corrnr with
  | None => None
  | Some nr => Some [("corrnr", nr)]
  end.

Definition LOCK_RESULT_MARKER : string := "dataname=com.sap.adt.lock.Result".

Definition lock_headers : gmap string string :=
  {[ "X-sap-adt-sessiontype" := "stateful";
     "Accept" := Str.join ", "
       [ "application/vnd.sap.as+xml;charset=UTF-8;dataname=com.sap.adt.lock.result;q=0.8";
         "application/vnd.sap.as+xml;charset=UTF-8;dataname=com.sap.adt.lock.result2;q=0.9" ] ]}.

Definition unlock_headers : gmap string string :=
  {[ "X-sap-adt-sessiontype" := "stateful" ]}.

Definition activate_headers : gmap string string :=
  {[ "Accept" := "application/xml"; "Content-Type" := "application/xml" ]}.

Definition already_locked (self : ADTObject) : string :=
  "Object " +:+ obj_uri self +:+ ": already locked".

Definition not_locked (self : ADTObject) : string :=
  "Object " +:+ obj_uri self +:+ ": not locked".

Definition no_lock_result (self : ADTObject) (response_text : string) : string :=
  "Object " +:+ obj_uri self +:+ ": lock response does not have lock result"
  +:+ Str.nl +:+ response_text.

Definition not_activated (self : ADTObject) (response_text : string) : string :=
  "Could not activate the object " +:+ _name self +:+ ": " +:+ response_text.

Section ADTObject.

Context {C : Type} `{ConnectionLike C}.

(** The connection raises no [SAPCliError] of its own. *)
Definition raises_no_cli_error : Prop :=
  forall m u p h b (c : C) (msg : string),
    (conn_execute m u p h b c).2 <> inl (SAPCliError msg).

(** The state of a call: the object, and the connection it refers to. *)
Definition get_self : M (ADTObject * C) ADTObject :=
  st <- get ;; ret (fst st).

Definition set_lock (l : option string) : M (ADTObject * C) unit :=
  modify (fun '(self, c) => (with_lock self l, c)).

Definition activation_request (self : ADTObject) (c : C) : string :=
  "<?xml version=" +:+ Str.dq +:+ "1.0" +:+ Str.dq +:+ " encoding="
    +:+ Str.dq +:+ "UTF-8" +:+ Str.dq +:+ "?>" +:+ Str.nl
  +:+ "<adtcore:objectReferences xmlns:adtcore="
    +:+ Str.dq +:+ "http://www.sap.com/adt/core" +:+ Str.dq +:+ ">" +:+ Str.nl
  +:+ "<adtcore:objectReference adtcore:uri=" +:+ Str.dq +:+ "/"
    +:+ conn_uri c +:+ "/" +:+ obj_uri self +:+ Str.dq
    +:+ " adtcore:name=" +:+ Str.dq +:+ Str.upper (_name self) +:+ Str.dq
    +:+ "/>" +:+ Str.nl
  +:+ "</adtcore:objectReferences>".

(** The three requests of the protocol, as [execute] gets them. *)
Definition post_lock (self : ADTObject) : M C Response :=
  conn_execute "POST" (obj_uri self)
               (Some (lock_params LOCK_ACCESS_MODE_MODIFY))
               (Some lock_headers) None.

Definition post_unlock (self : ADTObject) (handle : string) : M C Response :=
  conn_execute "POST" (obj_uri self)
               (Some (unlock_params handle)) (Some unlock_headers) None.

Definition post_activation (request : string) : M C Response :=
  conn_execute "POST" "activation" (Some activation_params)
               (Some activate_headers) (Some request).

Definition lock : M (ADTObject * C) unit :=
  self <- get_self ;;
  match _lock self with
  | Some _ => raise (SAPCliError (already_locked self))
  | None =>
      resp <- on_snd (post_lock self) ;;
      match headers resp !! "Content-Type" with
      | None => raise (KeyError "Content-Type")
      | Some content_type =>
          if negb (Str.str_in LOCK_RESULT_MARKER content_type)
          then raise (SAPCliError (no_lock_result self (text resp)))
          else match Re.match_lock_handle (text resp) with
               | None => raise (TypeError "'NoneType' object is not subscriptable")
               | Some handle => set_lock (Some handle)
               end
      end
  end.

Definition unlock : M (ADTObject * C) unit :=
  self <- get_self ;;
  match _lock self with
  | None => raise (SAPCliError (not_locked self))
  | Some handle =>
      on_snd (post_unlock self handle) ;;;
      set_lock None
  end.

Definition activate : M (ADTObject * C) unit :=
  st <- get ;;
  let request := activation_request st.1 st.2 in
  resp <- on_snd (post_activation request) ;;
  match text resp with
  | EmptyString => ret tt
  | String _ _ => raise (SAPCliError (not_activated st.1 (text resp)))
  end.

End ADTObject.

(** ** [OrderedClassMembers]: the registry of declared members *)

Section OrderedClassMembers.

(** The objects bound in a class body other than a list of names, and
    what iterating over one of them gives ([list.extend] iterates). *)
Context {V : Type}.
Variable iterate : V -> exn + list string.

Inductive value :=
| Names (l : list string)
| Obj (v : V).

(** [collections.OrderedDict]: a key that is bound again keeps its
    place. *)
Definition OrderedDict := list (string * value).

Fixpoint od_set (key : string) (v : value) (d : OrderedDict) : OrderedDict :=
  match d with
  | [] => [(key, v)]
  | (k, w) :: rest =>
      if decide (k = key) then (k, v) :: rest else (k, w) :: od_set key v rest
  end.

Fixpoint od_get (d : OrderedDict) (key : string) : option value :=
  match d with
  | [] => None
  | (k, w) :: rest => if decide (k = key) then Some w else od_get rest key
  end.

Definition od_keys (d : OrderedDict) : list string := d.*1.

Inductive PyClass :=
| mkClass (name : string) (bases : list PyClass) (dict : OrderedDict).

Definition cls_dict (c : PyClass) : OrderedDict :=
  match c with mkClass _ _ d => d end.

Definition cls_bases (c : PyClass) : list PyClass :=
  match c with mkClass _ bs _ => bs end.

(** Attribute lookup on a class: its own dictionary, then its bases.
    A class made by the metaclass finds [__ordered__] in its own
    dictionary, so the order in which the bases are searched plays no
    part for it. *)
Fixpoint class_getattr (c : PyClass) (key : string) : option value :=
  match c with
  | mkClass _ bases d =>
      match od_get d key with
      | Some v => Some v
      | None =>
          (fix first_of (bs : list PyClass) : option value :=
             match bs with
             | [] => None
             | b :: bs' =>
                 match class_getattr b key with
                 | Some v => Some v
                 | None => first_of bs'
                 end
             end) bases
      end
  end.

Definition __prepare__ : OrderedDict := [].

Definition is_member_key (key : string) : bool :=
  negb (bool_decide (key ∈ ["__module__"; "__qualname__"])).

(** The names the class body adds to the registry. *)
Definition declared (classdict : OrderedDict) : list string :=
  filter (fun key => is_member_key key = true) (od_keys classdict).

(** What the registry takes over from a base: its [__ordered__], when
    it has that attribute. *)
Definition ordered_of (parent : PyClass) : exn + list string :=
  match class_getattr parent "__ordered__" with
  | Some (Names l) => inr l
  | Some (Obj v) => iterate v
  | None => inr []
  end.

Definition __new__ (name : string) (bases : list PyClass) (classdict : OrderedDict)
  : exn + PyClass :=
  let inherited :=
    match last bases with
    | Some parent => ordered_of parent
    | None => inr []
    end in
  match inherited with
  | inl e => inl e
  | inr members =>
      let members := members ++ declared classdict in
      inr (mkClass name bases (od_set "__ordered__" (Names members) classdict))
  end.

(** The registry a class carries: what reading [__ordered__] on it
    gives. *)
Definition registry (c : PyClass) : list string :=
  match class_getattr c "__ordered__" with
  | Some (Names l) => l
  | _ => []
  end.

(** The names of a list in the order of their first appearance,
    without those seen before. *)
Fixpoint first_seen (seen names : list string) : list string :=
  match names with
  | [] => []
  | x :: rest =>
      if bool_decide (x ∈ seen) then first_seen seen rest
      else x :: first_seen (seen ++ [x]) rest
  end.

(** The names a class body binds, in the order of their first
    binding, without the two the interpreter binds. *)
Definition body_names (body : list (string * value)) : list string :=
  first_seen ["__module__"; "__qualname__"] body.*1.

(** Running a class body: the interpreter binds [__module__] and
    [__qualname__] in the prepared namespace, then every statement of
    the body binds its name, in the order of the source. *)
Definition class_body (module qualname : V) (body : list (string * value))
  : OrderedDict :=
  foldl (fun d kv => od_set kv.1 kv.2 d)
        (od_set "__qualname__" (Obj qualname)
           (od_set "__module__" (Obj module) __prepare__))
        body.

(** The statement [class name(bases..., metaclass=OrderedClassMembers)]
    with its body; a class that has such a class among its bases is
    made by the metaclass as well. *)
Definition class_stmt (module qualname : V) (name : string)
    (bases : list PyClass) (body : list (string * value)) : exn + PyClass :=
  __new__ name bases (class_body module qualname body).

(** A chain of classes, each with the one before it as its only base. *)
Fixpoint class_chain (module qualname : V) (parent : PyClass)
    (subs : list (string * list (string * value))) : exn + PyClass :=
  match subs with
  | [] => inr parent
  | (name, body) :: rest =>
      match class_stmt module qualname name [parent] body with
      | inl e => inl e
      | inr c => class_chain module qualname c rest
      end
  end.

End OrderedClassMembers.

Arguments value : clear implicits.
Arguments OrderedDict : clear implicits.
Arguments PyClass : clear implicits.

(** ** Sample data *)

Module Sample.

Definition zfoo : ADTObject := ADTObject_init Program.OBJTYPE "ZFOO" None.

Definition lock_content_type : string :=
  "application/vnd.sap.as+xml; charset=utf-8; dataname=com.sap.adt.lock.Result".

Definition lock_response (body : string) : Response :=
  mkResponse body 200 {[ "Content-Type" := lock_content_type ]}.

Definition one_line : string :=
  "<DATA><LOCK_HANDLE>XYZ123</LOCK_HANDLE><CORRNR/></DATA>".

Definition two_lines : string :=
  "<DATA>" +:+ Str.nl +:+ "<LOCK_HANDLE>XYZ123</LOCK_HANDLE></DATA>".

Definition session0 : Session := mkSession 0 None ∅.

Definition discovery_response : Response :=
  mkResponse EmptyString 200 {[ "x-csrf-token" := "TOKEN" ]}.

Definition not_found : Response := mkResponse "Not Found" 404 ∅.

Definition connection : Connection := Connection_init "h" "001" "u" "p" None true.

Definition net (script : list (string + Response)) : Net (list (string + Response)) :=
  mkNet script [] 0.

(** Class bodies bind functions, which cannot be iterated over. *)
Definition no_iter (_ : unit) : exn + list string :=
  inl (TypeError "object is not iterable").

Definition def (name : string) : string * value unit := (name, Obj tt).

Definition make (name : string) (bases : list (PyClass unit))
    (body : list (string * value unit)) : PyClass unit :=
  match class_stmt no_iter tt tt name bases body with
  | inr c => c
  | inl _ => mkClass name bases []
  end.

Definition A : PyClass unit := make "A" [] [def "a"].
Definition B : PyClass unit := make "B" [] [def "b"].
Definition AB : PyClass unit := make "AB" [A; B] [def "c"].

Definition locked_zfoo : ADTObject := with_lock zfoo (Some "XYZ123").

Definition ok : Response := mkResponse EmptyString 200 ∅.

Definition plain_response : Response :=
  mkResponse "<html>Logon failed</html>" 200 {[ "Content-Type" := "text/html" ]}.

Definition mock (responses : list Response) : Mock.Connection :=
  Mock.Connection_init (Some responses).

Definition mock3 : Mock.Connection :=
  mock [lock_response one_line; ok; lock_response one_line].

Definition after_lock : ADTObject * Mock.Connection := (lock (zfoo, mock3)).1.

Definition after_unlock : ADTObject * Mock.Connection := (unlock after_lock).1.

(** The connection of this module over a scripted server. *)
Definition wire : ConnectionLike (Connection * Net (list (string + Response))) :=
  real_connection scripted ∅.

Definition fresh_wire : Connection * Net (list (string + Response)) :=
  (connection, net [inr discovery_response; inr (lock_response one_line)]).

Definition program_url : string :=
  "https://h:443/sap/bc/adt/programs/programs/zfoo?sap-client=001&saml2=disabled".

(** The bindings of the bodies of [ADTObject] and of [Program], in the
    order of the source; [description] is bound by its getter and again
    by its setter. *)
Definition ADTObject_body : list (string * value unit) :=
  def <$> ["__doc__"; "__init__"; "coredata"; "connection"; "objtype"; "package";
           "description"; "description"; "language"; "name"; "master_language";
           "master_system"; "responsible"; "uri"; "text"; "reference"; "create";
           "lock"; "unlock"; "activate"].

Definition Program_body : list (string * value unit) :=
  def <$> ["__doc__"; "OBJTYPE"; "__init__"; "active"; "change_text"].

Definition ADTObject_class : PyClass unit := make "ADTObject" [] ADTObject_body.
Definition Program_class : PyClass unit :=
  make "Program" [ADTObject_class] Program_body.

(** The members of the two classes that are declared with
    [xml_attribute]. *)
Definition xml_attributes : list string :=
  ["description"; "language"; "name"; "master_language"; "master_system";
   "responsible"; "active"].

Definition get_program : Call := mkCall "GET" "programs/programs/zfoo" None None None.

End Sample.

(** ** The text of an object, and runs of calls *)

Section Text.

Context {Server : Type}.
Variable transmit : Server -> PreparedRequest -> Server * (string + Response).
Variable default_headers : gmap string string.

(** The property [text] of an ADT object, on the connection of this
    module (the one that has [get_text]). *)
Definition ADTObject_text (self : ADTObject) : M (Connection * Net Server) string :=
  match get_uri_for_type (objtype self) "text/plain" with
  | inl e => raise e
  | inr text_uri =>
      get_text transmit default_headers (obj_uri self +:+ text_uri)
  end.

End Text.

(** [s[1:]] *)
Definition str_tail (s : string) : string :=
  match s with
  | EmptyString => EmptyString
  | String _ t => t
  end.

(** A caller that makes one call after the other and catches what each
    of them raises. *)
Fixpoint attempt_all {S A} (calls : list (M S A)) (s : S) : S * list (exn + A) :=
  match calls with
  | [] => (s, [])
  | call :: rest =>
      let '(s1, r) := call s in
      let '(s2, rs) := attempt_all rest s1 in
      (s2, r :: rs)
  end.

Definition mock_call (call : Call) : M Mock.Connection Response :=
  Mock.execute (c_method call) (c_uri call) (c_params call)
               (c_headers call) (c_body call).

(** What the mock writes down for a call. *)
Definition mock_request (call : Call) : Mock.Request :=
  Mock.mkRequest (c_method call) ("/" +:+ "sap/bc/adt" +:+ "/" +:+ c_uri call)
                 (c_headers call) (c_body call) (c_params call).

(** More sample data. *)
Module Sample2.

Definition refused : Response := mkResponse "Unauthorized" 401 ∅.

Definition no_token : Response := mkResponse EmptyString 200 ∅.

Definition source : Response := mkResponse "REPORT zfoo." 200 ∅.

Definition net (script : list (string + Response)) : Net (list (string + Response)) :=
  mkNet script [] 0.

Definition live_session : Session :=
  mkSession 0 (Some (mkAuth "u" "p")) {[ "x-csrf-token" := "TOKEN"; "Accept" := "*/*" ]}.

Definition live : Connection := with_session Sample.connection (Some live_session).

Definition zpkg : ADTObject := ADTObject_init Package.OBJTYPE "ZPKG" None.

Definition two_handles : string :=
  "<LOCK_HANDLE>A</LOCK_HANDLE><LOCK_HANDLE>B</LOCK_HANDLE>".


End Sample2.

(** * Properties *)

(** ** Strings *)

Module StrFacts.
Import Str.

Lemma app_nil (s : string) : EmptyString +:+ s = s.
Proof. reflexivity. Qed.

Lemma app_cons (c : ascii) (a s : string) : String c a +:+ s = String c (a +:+ s).
Proof. reflexivity. Qed.

Ltac unfold_app := rewrite ?app_cons, ?app_nil in *; simpl in *.

Lemma app_assoc (a b c : string) : (a +:+ b) +:+ c = a +:+ b +:+ c.
Proof. induction a as [|x a IH]; unfold_app; [reflexivity | now f_equal]. Qed.

Lemma app_inv_head (a b c : string) : a +:+ b = a +:+ c -> b = c.
Proof. apply String.app_inj. Qed.

Lemma startswith_app (p s : string) : startswith p (p +:+ s) = true.
Proof.
  induction p as [|a p IH]; unfold_app; [reflexivity|].
  destruct (decide (a = a)); [assumption | congruence].
Qed.

Lemma startswith_refl (s : string) : startswith s s = true.
Proof.
  induction s as [|a s IH]; simpl; [reflexivity|].
  destruct (decide (a = a)); [assumption | congruence].
Qed.

Lemma str_in_here (sub s : string) : startswith sub s = true -> str_in sub s = true.
Proof. intros E. destruct s; simpl in *; now rewrite E. Qed.

Lemma str_in_cons (sub : string) (c : ascii) (s : string) :
  str_in sub s = true -> str_in sub (String c s) = true.
Proof.
  intros E. change (str_in sub (String c s))
    with (if startswith sub (String c s) then true else str_in sub s).
  now destruct (startswith sub (String c s)).
Qed.

(** A text contains each of its suffixes. *)
Lemma str_in_suffix (a s : string) : str_in s (a +:+ s) = true.
Proof.
  induction a as [|x a IH]; unfold_app.
  - apply str_in_here, startswith_refl.
  - now apply str_in_cons.
Qed.

Lemma occurrences_cons (sub : string) (c : ascii) (s : string) :
  occurrences sub (String c s)
  = ((if startswith sub (String c s) then 1 else 0) + occurrences sub s)%nat.
Proof. reflexivity. Qed.

Lemma occurrences_app_ge (sub m r : string) :
  (occurrences sub r <= occurrences sub (m +:+ r))%nat.
Proof.
  induction m as [|x m IH]; rewrite ?app_cons, ?app_nil; [lia|].
  rewrite occurrences_cons. lia.
Qed.

Lemma occurrences_here (sub s : string) :
  startswith sub s = true -> (1 <= occurrences sub s)%nat.
Proof.
  intros E. destruct s; [simpl in *; now rewrite E|].
  rewrite occurrences_cons, E. lia.
Qed.

(** Where a text holds [sub] once, two places at which [sub] starts
    are the same place. *)
Lemma occurrences_once (sub : string) :
  forall m r m' r' : string,
    m +:+ r = m' +:+ r' ->
    occurrences sub (m +:+ r) = 1%nat ->
    startswith sub r = true -> startswith sub r' = true ->
    m = m'.
Proof.
  induction m as [|x m IH]; intros r [|y m'] r' E O Hr Hr';
    rewrite ?app_cons, ?app_nil in *.
  - reflexivity.
  - subst r. rewrite occurrences_cons, Hr in O.
    pose proof (occurrences_app_ge sub m' r').
    pose proof (occurrences_here sub r' Hr'). lia.
  - subst r'. rewrite occurrences_cons, Hr' in O.
    pose proof (occurrences_app_ge sub m r).
    pose proof (occurrences_here sub r Hr). lia.
  - injection E as -> E.
    f_equal. apply (IH r m' r' E); [|assumption..].
    rewrite occurrences_cons in O.
    pose proof (occurrences_app_ge sub m r).
    pose proof (occurrences_here sub r Hr).
    destruct (startswith sub (String y (m +:+ r))); lia.
Qed.

End StrFacts.

(** ** The matcher *)

Module ReFacts.
Import Str Re StrFacts.

Lemma strip_prefix_app (p s : string) : strip_prefix p (p +:+ s) = Some s.
Proof.
  induction p as [|a p IH]; unfold_app; [now destruct s|].
  destruct (decide (a = a)); [assumption | congruence].
Qed.

Lemma strip_prefix_none (p s : string) :
  startswith p s = false -> strip_prefix p s = None.
Proof.
  revert s. induction p as [|a p IH]; intros [|b s]; simpl; try congruence.
  destruct (decide (a = b)); auto.
Qed.

Lemma lit_app {A} (p s : string) (k : string -> option A) :
  lit p (p +:+ s) k = k s.
Proof. unfold lit. now rewrite strip_prefix_app. Qed.

Lemma lit_none {A} (p s : string) (k : string -> option A) :
  startswith p s = false -> lit p s k = None.
Proof. intros E. unfold lit. now rewrite strip_prefix_none. Qed.

(** A run of any characters before something that always matches. *)
Lemma dots_const {A} (s : string) (x : A) : dots s (fun _ _ => Some x) = Some x.
Proof.
  induction s as [|c s IH]; simpl; [reflexivity|].
  destruct (is_newline c); [reflexivity|]. now rewrite IH.
Qed.

Lemma dots_none {A} (s : string) :
  forall k : string -> string -> option A,
    (forall m r, m +:+ r = s -> k m r = None) -> dots s k = None.
Proof.
  induction s as [|c s IH]; intros k Hk; simpl.
  - now apply Hk.
  - destruct (is_newline c); [now apply Hk|].
    rewrite IH; [now apply Hk|].
    intros m r E. apply Hk. now rewrite app_cons, E.
Qed.

(** When the rest of the pattern matches at one split of the text
    only, with no line break before it, the run ends there. *)
Lemma dots_unique {A} (s : string) :
  forall (k : string -> string -> option A) (a b : string),
    s = a +:+ b -> no_newline a = true ->
    (forall m r, m +:+ r = s -> m <> a -> k m r = None) ->
    dots s k = k a b.
Proof.
  induction s as [|c s IH]; intros k a b E Ha Hk; simpl.
  - destruct a; [|discriminate]. rewrite app_nil in E. now subst b.
  - destruct a as [|x a]; rewrite ?app_cons, ?app_nil in E.
    + subst b. destruct (is_newline c); [reflexivity|].
      rewrite dots_none; [reflexivity|].
      intros m r Em. apply Hk; [now rewrite app_cons, Em | discriminate].
    + injection E as -> ->. simpl in Ha.
      apply andb_true_iff in Ha as [Hx Ha].
      destruct (is_newline x); [discriminate|].
      rewrite (IH (fun m r => k (String x m) r) a b eq_refl Ha).
      * destruct (k (String x a) b) eqn:Ek; [reflexivity|].
        apply Hk; [reflexivity | discriminate].
      * intros m r Em Hm. apply Hk; [now rewrite app_cons, Em | congruence].
Qed.

(** A run of any characters never takes a line break. *)
Lemma dots_none_newline {A} (s : string) :
  forall k : string -> string -> option A,
    (forall m r, m +:+ r = s -> no_newline m = true -> k m r = None) ->
    dots s k = None.
Proof.
  induction s as [|c s IH]; intros k Hk; simpl.
  - now apply Hk.
  - destruct (is_newline c) eqn:Ec; [now apply Hk|].
    rewrite IH; [now apply Hk|].
    intros m r E Hm. apply Hk; [now rewrite app_cons, E|].
    simpl. now rewrite Ec.
Qed.

(** After a line break the only opening tag of a text is out of reach:
    there is no match. *)
Lemma match_lock_handle_after_newline (pre rest : string) :
  occurrences OPEN (pre +:+ OPEN +:+ rest) = 1%nat ->
  no_newline pre = false ->
  match_lock_handle (pre +:+ OPEN +:+ rest) = None.
Proof.
  intros HO Hpre. unfold match_lock_handle.
  apply dots_none_newline. intros m r E Hm.
  destruct (startswith OPEN r) eqn:Er; [|now apply lit_none].
  exfalso.
  assert (Em : m = pre).
  { apply (occurrences_once OPEN m r pre (OPEN +:+ rest) E);
      [now rewrite E | assumption | apply startswith_app]. }
  congruence.
Qed.

(** The handle between the only opening and the only closing tag of a
    text, when no line break comes before the closing tag. *)
Lemma match_lock_handle_once (pre handle post : string) :
  let text := pre +:+ OPEN +:+ handle +:+ CLOSE +:+ post in
  occurrences OPEN text = 1%nat ->
  occurrences CLOSE text = 1%nat ->
  no_newline pre = true ->
  no_newline handle = true ->
  match_lock_handle text = Some handle.
Proof.
  intros text HO HC Hpre Hh. unfold match_lock_handle.
  rewrite (dots_unique text _ pre (OPEN +:+ handle +:+ CLOSE +:+ post) eq_refl Hpre).
  - rewrite lit_app.
    rewrite (dots_unique _ _ handle (CLOSE +:+ post) eq_refl Hh).
    + rewrite lit_app. apply dots_const.
    + intros m r E Hm.
      destruct (startswith CLOSE r) eqn:Er; [|now apply lit_none].
      exfalso. apply Hm.
      assert (E' : (pre +:+ OPEN +:+ m) +:+ r
                   = (pre +:+ OPEN +:+ handle) +:+ CLOSE +:+ post).
      { rewrite !app_assoc. now rewrite E. }
      assert (Em : pre +:+ OPEN +:+ m = pre +:+ OPEN +:+ handle).
      { apply (occurrences_once CLOSE _ r _ (CLOSE +:+ post) E');
          [| assumption | apply startswith_app].
        rewrite E', !app_assoc. exact HC. }
      now apply app_inv_head, app_inv_head in Em.
  - intros m r E Hm.
    destruct (startswith OPEN r) eqn:Er; [|now apply lit_none].
    exfalso. apply Hm.
    apply (occurrences_once OPEN m r pre (OPEN +:+ handle +:+ CLOSE +:+ post) E);
      [| assumption | apply startswith_app].
    rewrite E. exact HO.
Qed.

End ReFacts.

(** ** The connection *)

Section ConnectionFacts.

Context {Server : Type}.
Variable transmit : Server -> PreparedRequest -> Server * (string + Response).
Variable default_headers : gmap string string.

Local Abbreviation exchange := (_execute_with_session transmit).
Local Abbreviation exec := (execute transmit default_headers).
Local Abbreviation runs := (run_calls transmit default_headers).

(** One exchange is one request on the wire, whatever comes back. *)
Lemma execute_with_session_sends_once session method url params hdrs body
    (n : Net Server) :
  let req := prepare_request session (Str.upper method) url params hdrs body in
  let n' := (exchange session method url params hdrs body n).1 in
  net_sent n' = net_sent n ++ [req]
  /\ net_server n' = (transmit (net_server n) req).1
  /\ net_sessions n' = net_sessions n.
Proof.
  unfold _execute_with_session, bind, send, raise, ret. simpl.
  destruct (transmit _ _) as [srv [msg|res]]; simpl; [auto|].
  destruct (400 <=? status_code res); simpl; auto.
Qed.

Lemma execute_with_session_raises session method url params hdrs body
    (n : Net Server) (e : exn) :
  (exchange session method url params hdrs body n).2 = inl e ->
  (exists msg, e = RequestException msg) \/ (exists req res, e = HTTPRequestError req res).
Proof.
  unfold _execute_with_session, bind, send, raise, ret. simpl.
  destruct (transmit _ _) as [srv [msg|res]]; simpl.
  - intros [= <-]. eauto.
  - destruct (400 <=? status_code res); simpl; [|discriminate].
    intros [= <-]. eauto.
Qed.

(** With a session in place, [execute] is the one exchange asked for
    and leaves the connection as it was. *)
Lemma execute_established (c : Connection) (s : Session) (n : Net Server)
    method adt_uri params hdrs body :
  _session c = Some s ->
  exec method adt_uri params hdrs body (c, n)
  = let r := exchange s method (_build_adt_url c adt_uri)
                                   params hdrs body n in
    ((c, r.1), r.2).
Proof.
  intros Hs. unfold execute, _get_session, bind, get, ret, on_snd.
  simpl. rewrite Hs. simpl.
  destruct (exchange _ _ _ _ _ _ _); reflexivity.
Qed.

(** What [_get_session] leaves behind is a connection with a session. *)
Lemma execute_leaves_session (c : Connection) (n : Net Server)
    method adt_uri params hdrs body :
  _session c = None ->
  let st := (exec method adt_uri params hdrs body (c, n)).1 in
  (exists s, _session st.1 = Some s /\ sess_id s = net_sessions n)
  /\ net_sessions st.2 = S (net_sessions n).
Proof.
  intros Hs. unfold execute, _get_session, bind, get, ret, raise,
    on_snd, set_session, modify, Session_new. simpl. rewrite Hs. simpl.
  match goal with |- context [exchange ?a ?b ?c ?d ?e ?f ?g] =>
    pose proof (execute_with_session_sends_once a b c d e f g) as (_ & _ & Hd);
    destruct (exchange a b c d e f g) as [n1 [e1|d1]] end;
    simpl in *; [eauto|].
  destruct (headers d1 !! "x-csrf-token"); simpl; [|eauto].
  match goal with |- context [exchange ?a ?b ?c ?d ?e ?f ?g] =>
    pose proof (execute_with_session_sends_once a b c d e f g) as (_ & _ & Hd');
    destruct (exchange a b c d e f g) as [n2 r2] end.
  simpl in *. split; [eauto | congruence].
Qed.

Lemma run_call_established (c : Connection) (s : Session) (n : Net Server)
    (call : Call) :
  _session c = Some s ->
  exists n1, run_call transmit default_headers (c, n) call = (c, n1)
    /\ net_sessions n1 = net_sessions n
    /\ net_sent n1 = net_sent n ++ [request_of c s call].
Proof.
  intros Hs. unfold run_call. rewrite (execute_established c s n _ _ _ _ _ Hs).
  pose proof (execute_with_session_sends_once s (c_method call)
                (_build_adt_url c (c_uri call)) (c_params call)
                (c_headers call) (c_body call) n) as (H1 & _ & H3).
  destruct (exchange s _ _ _ _ _ n) as [n1 r1]. simpl in *. eauto.
Qed.

Lemma run_calls_established (calls : list Call) :
  forall (c : Connection) (s : Session) (n : Net Server),
    _session c = Some s ->
    let st := runs calls (c, n) in
    st.1 = c
    /\ net_sessions st.2 = net_sessions n
    /\ net_sent st.2 = net_sent n ++ map (request_of c s) calls.
Proof.
  induction calls as [|call calls IH]; intros c s n Hs.
  - simpl. now rewrite app_nil_r.
  - unfold run_calls. simpl foldl.
    destruct (run_call_established c s n call Hs) as (n1 & -> & H3 & H1).
    destruct (IH c s n1 Hs) as (I1 & I2 & I3).
    unfold run_calls in I1, I2, I3. cbv zeta.
    rewrite I1, I2, I3, H1, H3. simpl map. now rewrite <- app_assoc.
Qed.

(** However its calls end, a connection opens at most one session. *)
Lemma sessions_at_most_one (calls : list Call) (c : Connection) (n : Net Server) :
  _session c = None ->
  (net_sessions (runs calls (c, n)).2 <= S (net_sessions n))%nat.
Proof.
  intros Hs. destruct calls as [|call calls]; [simpl; lia|].
  unfold run_calls. simpl foldl. unfold run_call at 2.
  pose proof (execute_leaves_session c n (c_method call) (c_uri call)
                (c_params call) (c_headers call) (c_body call) Hs) as [(s & Es & _) En].
  destruct (exec _ _ _ _ _ (c, n)) as [[c1 n1] r1]. simpl in Es, En. simpl fst.
  destruct (run_calls_established calls c1 s n1 Es) as (_ & I2 & _).
  unfold run_calls in I2. simpl in I2. rewrite I2. lia.
Qed.

(** No exception of the connection is a [SAPCliError]. *)
Lemma execute_not_cli :
  @raises_no_cli_error _ (real_connection transmit default_headers).
Proof.
  intros method adt_uri params hdrs body [c n] msg. simpl.
  unfold execute, _get_session, bind, get, ret, raise,
    on_snd, set_session, modify, Session_new. simpl.
  destruct (_session c) as [s|]; simpl.
  - destruct (exchange _ _ _ _ _ _ _) as [n1 [e|r]] eqn:E; simpl;
      [|discriminate].
    intros [= ->].
    destruct (execute_with_session_raises _ _ _ _ _ _ _ (SAPCliError msg)
                (f_equal snd E)) as [[? ?]|(? & ? & ?)]; discriminate.
  - destruct (exchange _ _ _ _ _ _ _) as [n1 [e|d]] eqn:E; simpl.
    + intros [= ->].
      destruct (execute_with_session_raises _ _ _ _ _ _ _ (SAPCliError msg)
                  (f_equal snd E)) as [[? ?]|(? & ? & ?)]; discriminate.
    + destruct (headers d !! "x-csrf-token"); simpl; [|discriminate].
      destruct (exchange _ _ _ _ _ _ n1) as [n2 [e|r]] eqn:E2; simpl;
        [|discriminate].
      intros [= ->].
      destruct (execute_with_session_raises _ _ _ _ _ _ _ (SAPCliError msg)
                  (f_equal snd E2)) as [[? ?]|(? & ? & ?)]; discriminate.
Qed.

(** The first call on a connection without a session, when the
    discovery request is answered with a token. *)
Lemma execute_first (c : Connection) (n : Net Server)
    method adt_uri params hdrs body srv d tok :
  _session c = None ->
  transmit (net_server n) (discovery_request default_headers c (net_sessions n))
    = (srv, inr d) ->
  status_code d < 400 ->
  headers d !! "x-csrf-token" = Some tok ->
  let s := mkSession (net_sessions n) (Some (_auth c))
                     ({[ "x-csrf-token" := tok ]} ∪ default_headers) in
  let n1 := mkNet srv
              (net_sent n ++ [discovery_request default_headers c (net_sessions n)])
              (S (net_sessions n)) in
  exec method adt_uri params hdrs body (c, n)
  = let r := exchange s method (_build_adt_url c adt_uri) params hdrs body n1 in
    ((with_session c (Some s), r.1), r.2).
Proof.
  intros Hs Hd Hst Htok s n1.
  unfold execute, _get_session, bind, get, ret, raise,
    on_snd, set_session, modify, Session_new. simpl. rewrite Hs. simpl.
  unfold _execute_with_session at 1. unfold bind, send, raise, ret. simpl.
  change (Str.upper "GET") with "GET".
  unfold discovery_request in Hd. rewrite Hd. simpl.
  destruct (400 <=? status_code d) eqn:E; [apply Z.leb_le in E; lia|].
  simpl. rewrite Htok. simpl.
  match goal with |- context [exchange ?s' method ?u params hdrs body ?m] =>
    change (exchange s' method u params hdrs body m)
      with (exchange s method (_build_adt_url c adt_uri) params hdrs body n1) end.
  destruct (exchange s method _ params hdrs body n1); reflexivity.
Qed.

(** C9: a connection has at most one session: however its calls end, it
    opens no second one; the first [execute] opens the session with a
    GET of core/discovery that carries x-csrf-token: Fetch and keeps the
    x-csrf-token of the response among the headers of the session; every
    later [execute] uses that session and sends its own request only. *)
Theorem one_session_per_connection (c : Connection) (n : Net Server)
    (first : Call) (later : list Call) srv d tok :
  _session c = None ->
  transmit (net_server n) (discovery_request default_headers c (net_sessions n))
    = (srv, inr d) ->
  status_code d < 400 ->
  headers d !! "x-csrf-token" = Some tok ->
  let s := mkSession (net_sessions n) (Some (_auth c))
                     ({[ "x-csrf-token" := tok ]} ∪ default_headers) in
  let st1 := run_call transmit default_headers (c, n) first in
  let st := runs later st1 in
  (forall (calls : list Call) (n' : Net Server),
      (net_sessions (runs calls (c, n')).2 <= S (net_sessions n'))%nat)
  /\ p_method (discovery_request default_headers c (net_sessions n)) = "GET"
  /\ p_url (discovery_request default_headers c (net_sessions n))
     = _build_adt_url c "core/discovery"
  /\ p_headers (discovery_request default_headers c (net_sessions n))
       !! "x-csrf-token" = Some "Fetch"
  /\ st1.1 = with_session c (Some s)
  /\ sess_headers s !! "x-csrf-token" = Some tok
  /\ net_sessions st1.2 = S (net_sessions n)
  /\ net_sent st1.2
     = net_sent n ++ [discovery_request default_headers c (net_sessions n);
                      request_of c s first]
  /\ st.1 = st1.1
  /\ net_sessions st.2 = net_sessions st1.2
  /\ net_sent st.2 = net_sent st1.2 ++ map (request_of c s) later.
Proof.
  intros Hs Hd Hst Htok s st1 st.
  split; [intros calls n'; now apply sessions_at_most_one|].
  split; [reflexivity|]. split; [reflexivity|].
  split.
  { unfold discovery_request, prepare_request. simpl.
    apply lookup_union_Some_l, lookup_singleton_eq. }
  assert (E1 : st1 = (with_session c (Some s),
                      (exchange s (c_method first) (_build_adt_url c (c_uri first))
                         (c_params first) (c_headers first) (c_body first)
                         (mkNet srv (net_sent n ++
                            [discovery_request default_headers c (net_sessions n)])
                            (S (net_sessions n)))).1)).
  { unfold st1, run_call.
    rewrite (execute_first c n _ _ _ _ _ srv d tok Hs Hd Hst Htok). reflexivity. }
  pose proof (execute_with_session_sends_once s (c_method first)
                (_build_adt_url c (c_uri first)) (c_params first)
                (c_headers first) (c_body first)
                (mkNet srv (net_sent n ++
                   [discovery_request default_headers c (net_sessions n)])
                   (S (net_sessions n)))) as (H1 & _ & H3).
  destruct (exchange s _ _ _ _ _ _) as [n2 r2]. simpl in H1, H3, E1.
  assert (Es : _session (with_session c (Some s)) = Some s) by reflexivity.
  destruct (run_calls_established later (with_session c (Some s)) s n2 Es)
    as (I1 & I2 & I3).
  unfold st. rewrite E1. simpl fst. simpl snd.
  split; [reflexivity|].
  split; [apply lookup_union_Some_l, lookup_singleton_eq|].
  split; [assumption|].
  split; [rewrite H1, <- app_assoc; reflexivity|].
  split; [assumption|]. split; [assumption|]. exact I3.
Qed.

(** C8: an exchange whose response has a status of 400 or more raises
    [HTTPRequestError] with the prepared request and that response; a
    response with a lower status is returned as it came; either way the
    request went out once. *)
Theorem status_400_raises_else_returns session method url params hdrs body
    (n : Net Server) srv res :
  transmit (net_server n)
           (prepare_request session (Str.upper method) url params hdrs body)
    = (srv, inr res) ->
  let req := prepare_request session (Str.upper method) url params hdrs body in
  let r := exchange session method url params hdrs body n in
  r.1 = mkNet srv (net_sent n ++ [req]) (net_sessions n)
  /\ (400 <= status_code res -> r.2 = inl (HTTPRequestError req res))
  /\ (status_code res < 400 -> r.2 = inr res).
Proof.
  intros Ht req r. unfold r, _execute_with_session, bind, send, raise, ret.
  cbv zeta beta. rewrite Ht. fold req.
  destruct (400 <=? status_code res) eqn:E; simpl.
  - apply Z.leb_le in E. split; [reflexivity|]. split; [reflexivity|]. lia.
  - apply Z.leb_gt in E. split; [reflexivity|]. split; [lia|]. reflexivity.
Qed.

End ConnectionFacts.

(** ** The connection of the unit tests *)

Lemma mock_execute_not_cli : @raises_no_cli_error Mock.Connection mock_connection.
Proof.
  intros m u p h b c msg. simpl. unfold Mock.execute.
  destruct (Mock._resp_iter c); discriminate.
Qed.

(** ** Lock, unlock, activate *)

Section ADTObjectFacts.

Context {C : Type} `{ConnectionLike C}.

Lemma with_lock_same (o : ADTObject) : with_lock o (_lock o) = o.
Proof. now destruct o. Qed.

Lemma lock_when_locked (o : ADTObject) (c : C) (h : string) :
  _lock o = Some h ->
  lock (o, c) = ((o, c), inl (SAPCliError (already_locked o))).
Proof. intros E. unfold lock, get_self, bind, get, ret, raise. simpl. now rewrite E. Qed.

Lemma unlock_when_unlocked (o : ADTObject) (c : C) :
  _lock o = None ->
  unlock (o, c) = ((o, c), inl (SAPCliError (not_locked o))).
Proof. intros E. unfold unlock, get_self, bind, get, ret, raise. simpl. now rewrite E. Qed.

(** What [lock] does with the answer of the server. *)
Lemma lock_when_unlocked (o : ADTObject) (c : C) :
  _lock o = None ->
  lock (o, c)
  = match post_lock o c with
    | (c', inl e) => ((o, c'), inl e)
    | (c', inr resp) =>
        match headers resp !! "Content-Type" with
        | None => ((o, c'), inl (KeyError "Content-Type"))
        | Some ct =>
            if Str.str_in LOCK_RESULT_MARKER ct then
              match Re.match_lock_handle (text resp) with
              | None => ((o, c'),
                         inl (TypeError "'NoneType' object is not subscriptable"))
              | Some handle => ((with_lock o (Some handle), c'), inr tt)
              end
            else ((o, c'), inl (SAPCliError (no_lock_result o (text resp))))
        end
    end.
Proof.
  intros E. unfold lock, get_self, bind, get, ret, raise, on_snd, set_lock, modify.
  simpl. rewrite E.
  destruct (post_lock o c) as [c' [e|resp]]; [reflexivity|].
  destruct (headers resp !! "Content-Type") as [ct|]; [|reflexivity].
  destruct (Str.str_in LOCK_RESULT_MARKER ct); simpl; [|reflexivity].
  destruct (Re.match_lock_handle (text resp)); reflexivity.
Qed.

(** A response without a Content-Type header ends in the [KeyError] of
    the subscript. *)
Lemma lock_without_content_type (o : ADTObject) (c c' : C) (resp : Response) :
  _lock o = None ->
  post_lock o c = (c', inr resp) ->
  headers resp !! "Content-Type" = None ->
  lock (o, c) = ((o, c'), inl (KeyError "Content-Type")).
Proof. intros E0 Ep Ect. now rewrite (lock_when_unlocked o c E0), Ep, Ect. Qed.

(** A text the pattern does not match ends in the [TypeError] of the
    subscript on [None]. *)
Lemma lock_without_match (o : ADTObject) (c c' : C) (resp : Response) (ct : string) :
  _lock o = None ->
  post_lock o c = (c', inr resp) ->
  headers resp !! "Content-Type" = Some ct ->
  Str.str_in LOCK_RESULT_MARKER ct = true ->
  Re.match_lock_handle (text resp) = None ->
  lock (o, c)
  = ((o, c'), inl (TypeError "'NoneType' object is not subscriptable")).
Proof.
  intros E0 Ep Ect Em En. now rewrite (lock_when_unlocked o c E0), Ep, Ect, Em, En.
Qed.

Lemma unlock_when_locked (o : ADTObject) (c : C) (h : string) :
  _lock o = Some h ->
  unlock (o, c)
  = match post_unlock o h c with
    | (c', inl e) => ((o, c'), inl e)
    | (c', inr _) => ((with_lock o None, c'), inr tt)
    end.
Proof.
  intros E. unfold unlock, get_self, bind, get, ret, raise, on_snd, set_lock, modify.
  simpl. rewrite E.
  destruct (post_unlock o h c) as [c' [e|resp]]; reflexivity.
Qed.

Lemma lock_succeeded (o o1 : ADTObject) (c c1 : C) :
  lock (o, c) = ((o1, c1), inr tt) ->
  _lock o = None /\ exists h, o1 = with_lock o (Some h).
Proof.
  destruct (_lock o) as [h|] eqn:E.
  - rewrite (lock_when_locked o c h E). discriminate.
  - rewrite (lock_when_unlocked o c E).
    destruct (post_lock o c) as [c' [e|resp]]; [discriminate|].
    destruct (headers resp !! "Content-Type") as [ct|]; [|discriminate].
    destruct (Str.str_in LOCK_RESULT_MARKER ct); [|discriminate].
    destruct (Re.match_lock_handle (text resp)) as [h|]; [|discriminate].
    intros [= <- <-]. eauto.
Qed.

Lemma unlock_succeeded (o1 o2 : ADTObject) (c1 c2 : C) :
  unlock (o1, c1) = ((o2, c2), inr tt) ->
  is_Some (_lock o1) /\ o2 = with_lock o1 None.
Proof.
  destruct (_lock o1) as [h|] eqn:E.
  - rewrite (unlock_when_locked o1 c1 h E).
    destruct (post_unlock o1 h c1) as [c' [e|resp]]; [discriminate|].
    intros [= <- <-]. eauto.
  - rewrite (unlock_when_unlocked o1 c1 E). discriminate.
Qed.

Lemma no_lock_result_not_already_locked (o : ADTObject) (t : string) :
  no_lock_result o t <> already_locked o.
Proof.
  unfold no_lock_result, already_locked. intros E.
  apply StrFacts.app_inv_head, StrFacts.app_inv_head in E.
  rewrite !StrFacts.app_cons in E. discriminate.
Qed.

(** C1: after a [lock] and an [unlock] that both returned, the object
    is as it was before, its lock token absent; [lock] then asks the
    server again instead of raising the already-locked error (the
    connection raising no [SAPCliError] of its own), and stores the
    handle of a well-formed answer. *)
Theorem lock_unlock_lock (o o1 o2 : ADTObject) (c c1 c2 : C) :
  raises_no_cli_error ->
  lock (o, c) = ((o1, c1), inr tt) ->
  unlock (o1, c1) = ((o2, c2), inr tt) ->
  _lock o2 = None
  /\ o2 = o
  /\ (lock (o2, c2)).2 <> inl (SAPCliError (already_locked o2))
  /\ (forall (c3 : C) (resp : Response) (ct h : string),
        post_lock o2 c2 = (c3, inr resp) ->
        headers resp !! "Content-Type" = Some ct ->
        Str.str_in LOCK_RESULT_MARKER ct = true ->
        Re.match_lock_handle (text resp) = Some h ->
        lock (o2, c2) = ((with_lock o2 (Some h), c3), inr tt)).
Proof.
  intros Hcli HL HU.
  apply lock_succeeded in HL as [E0 [h ->]].
  apply unlock_succeeded in HU as [_ ->].
  assert (Eo : with_lock (with_lock o (Some h)) None = o).
  { destruct o; simpl in *; now subst. }
  rewrite Eo. repeat split; [assumption| |].
  - rewrite (lock_when_unlocked o c2 E0).
    destruct (post_lock o c2) as [c' [e|resp]] eqn:Ep.
    + simpl. intros [= ->].
      exact (Hcli _ _ _ _ _ c2 _ (f_equal snd Ep)).
    + destruct (headers resp !! "Content-Type") as [ct|]; [|discriminate].
      destruct (Str.str_in LOCK_RESULT_MARKER ct).
      * destruct (Re.match_lock_handle (text resp)); discriminate.
      * intros E. apply (no_lock_result_not_already_locked o (text resp)).
        exact (f_equal (fun r : exn + unit =>
                          match r with
                          | inl (SAPCliError m) => m
                          | _ => EmptyString
                          end) E).
  - intros c3 resp ct h' Ep Ect Em Eh.
    now rewrite (lock_when_unlocked o c2 E0), Ep, Ect, Em, Eh.
Qed.

(** C2: [lock] on an object that holds a lock token, and [unlock] on one
    that holds none, raise [SAPCliError] and leave the object and the
    connection (so also its record of requests) as they were. *)
Theorem lock_state_guards (o : ADTObject) (c : C) :
  (is_Some (_lock o) ->
     lock (o, c) = ((o, c), inl (SAPCliError (already_locked o))))
  /\ (_lock o = None ->
        unlock (o, c) = ((o, c), inl (SAPCliError (not_locked o)))).
Proof.
  split.
  - intros [h E]. now apply (lock_when_locked o c h).
  - apply unlock_when_unlocked.
Qed.

(** Where the pattern does find the handle: when the Content-Type of
    the lock response has the marker, and the text holds the opening and
    the closing tag once, as [<LOCK_HANDLE>XYZ123</LOCK_HANDLE>], with no
    line break before the tag, [lock] returns and the lock token is
    [XYZ123]. *)
Theorem lock_handle_on_first_line (o : ADTObject) (c c' : C)
    (resp : Response) (ct pre post : string) :
  _lock o = None ->
  post_lock o c = (c', inr resp) ->
  headers resp !! "Content-Type" = Some ct ->
  Str.str_in LOCK_RESULT_MARKER ct = true ->
  text resp = pre +:+ "<LOCK_HANDLE>XYZ123</LOCK_HANDLE>" +:+ post ->
  Str.occurrences "<LOCK_HANDLE>" (text resp) = 1%nat ->
  Str.occurrences "</LOCK_HANDLE>" (text resp) = 1%nat ->
  Str.no_newline pre = true ->
  lock (o, c) = ((with_lock o (Some "XYZ123"), c'), inr tt).
Proof.
  intros E0 Ep Ect Em Et HO HC Hpre.
  rewrite (lock_when_unlocked o c E0), Ep, Ect, Em.
  assert (Eh : Re.match_lock_handle (text resp) = Some "XYZ123").
  { rewrite Et in *.
    apply (ReFacts.match_lock_handle_once pre "XYZ123" post);
      [exact HO | exact HC | exact Hpre | reflexivity]. }
  now rewrite Eh.
Qed.


(** C5: [activate] returns when the response has no text, and raises a
    [SAPCliError] whose message contains the text when there is one; the
    object is the same after the call either way. *)
Theorem activate_text_is_failure (o : ADTObject) (c c' : C) (resp : Response) :
  post_activation (activation_request o c) c = (c', inr resp) ->
  (text resp = EmptyString -> activate (o, c) = ((o, c'), inr tt))
  /\ (text resp <> EmptyString ->
        exists msg : string,
          activate (o, c) = ((o, c'), inl (SAPCliError msg))
          /\ Str.str_in (text resp) msg = true).
Proof.
  intros Ep.
  assert (Ea : activate (o, c)
               = match text resp with
                 | EmptyString => ((o, c'), inr tt)
                 | String _ _ =>
                     ((o, c'), inl (SAPCliError (not_activated o (text resp))))
                 end).
  { unfold activate, bind, get, ret, raise, on_snd. simpl. rewrite Ep.
    now destruct (text resp). }
  split.
  - intros Et. now rewrite Ea, Et.
  - intros Et. exists (not_activated o (text resp)). split.
    + rewrite Ea. now destruct (text resp).
    + unfold not_activated. rewrite <- !StrFacts.app_assoc.
      apply StrFacts.str_in_suffix.
Qed.

End ADTObjectFacts.

(** ** The registry of members *)

Section RegistryFacts.

Context {V : Type}.
Variable iterate : V -> exn + list string.

Local Abbreviation value := (value V).
Local Abbreviation OrderedDict := (OrderedDict V).
Local Abbreviation PyClass := (PyClass V).

Lemma od_get_set (key : string) (v : value) (d : OrderedDict) :
  od_get (od_set key v d) key = Some v.
Proof.
  induction d as [|[k w] d IH]; simpl.
  - now rewrite decide_True.
  - destruct (decide (k = key)) as [->|Hne]; simpl.
    + now rewrite decide_True.
    + now rewrite decide_False.
Qed.

Lemma od_keys_set (key : string) (v : value) (d : OrderedDict) :
  od_keys (od_set key v d)
  = if bool_decide (key ∈ od_keys d) then od_keys d else od_keys d ++ [key].
Proof.
  unfold od_keys. induction d as [|[k w] d IH]; csimpl; [reflexivity|].
  destruct (decide (k = key)) as [->|Hne]; csimpl.
  - rewrite bool_decide_eq_true_2; [reflexivity | left].
  - rewrite IH. destruct (bool_decide (key ∈ d.*1)) eqn:E.
    + apply bool_decide_eq_true in E.
      rewrite bool_decide_eq_true_2; [reflexivity | now right].
    + apply bool_decide_eq_false in E.
      rewrite bool_decide_eq_false_2; [reflexivity|].
      intros [->|?]%elem_of_cons; [congruence | contradiction].
Qed.

(** The keys of a namespace after a run of bindings: the keys it had,
    then the new names in the order of their first binding. *)
Lemma od_keys_bindings (body : list (string * value)) :
  forall d : OrderedDict,
    od_keys (foldl (fun d kv => od_set kv.1 kv.2 d) d body)
    = od_keys d ++ first_seen (od_keys d) body.*1.
Proof.
  induction body as [|[k v] body IH]; intros d; csimpl.
  - now rewrite app_nil_r.
  - rewrite IH, od_keys_set.
    destruct (bool_decide (k ∈ od_keys d)); [reflexivity|].
    now rewrite <- app_assoc.
Qed.

Lemma first_seen_fresh (names : list string) :
  forall (seen : list string) (x : string),
    x ∈ first_seen seen names -> x ∉ seen.
Proof.
  induction names as [|y names IH]; intros seen x; simpl.
  - intros Hx. now apply elem_of_nil in Hx.
  - destruct (bool_decide (y ∈ seen)) eqn:E; [apply IH|].
    apply bool_decide_eq_false in E.
    intros [->|Hx]%elem_of_cons; [assumption|].
    apply IH in Hx. intros Hs. apply Hx, elem_of_app. now left.
Qed.

Lemma filter_all (P : string -> Prop) `{!forall x, Decision (P x)}
    (l : list string) :
  (forall x, x ∈ l -> P x) -> filter P l = l.
Proof.
  induction l as [|x l IH]; intros Hl; [reflexivity|].
  rewrite filter_cons_True; [|apply Hl; left].
  rewrite IH; [reflexivity|]. intros y Hy. apply Hl. now right.
Qed.

(** The names a class body adds to the registry are the names it
    binds, in the order of their first binding. *)
Lemma declared_class_body (module qualname : V) (body : list (string * value)) :
  declared (class_body module qualname body) = body_names body.
Proof.
  unfold declared, class_body, body_names. rewrite od_keys_bindings.
  change (od_keys (od_set "__qualname__" (Obj qualname)
                     (od_set "__module__" (Obj module) __prepare__)))
    with ["__module__"; "__qualname__"].
  rewrite filter_app.
  change (filter (fun key => is_member_key key = true) ["__module__"; "__qualname__"])
    with (@nil string).
  simpl. apply filter_all.
  intros x Hx. apply first_seen_fresh in Hx.
  unfold is_member_key. now rewrite bool_decide_eq_false_2.
Qed.

Lemma getattr_own (name : string) (bases : list PyClass) (d : OrderedDict)
    (key : string) (v : value) :
  od_get d key = Some v -> class_getattr (mkClass name bases d) key = Some v.
Proof. intros E. simpl. now rewrite E. Qed.

(** The class the metaclass makes carries the registry of its last
    base, then the names of its own dictionary. *)
Lemma new_registry (name : string) (bases : list PyClass) (d : OrderedDict) :
  forall pm : list string,
    match last bases with
    | Some parent => ordered_of iterate parent
    | None => inr []
    end = inr pm ->
    exists cls, __new__ iterate name bases d = inr cls
      /\ cls_bases cls = bases
      /\ class_getattr cls "__ordered__" = Some (Names (pm ++ declared d))
      /\ registry cls = pm ++ declared d.
Proof.
  intros pm Hp. unfold __new__. rewrite Hp.
  eexists. split; [reflexivity|]. split; [reflexivity|].
  unfold registry. rewrite (getattr_own _ _ _ _ _ (od_get_set _ _ _)). eauto.
Qed.

Lemma ordered_of_registry (parent : PyClass) (pm : list string) :
  class_getattr parent "__ordered__" = Some (Names pm) ->
  ordered_of iterate parent = inr pm /\ registry parent = pm.
Proof. intros E. unfold ordered_of, registry. now rewrite E. Qed.

Lemma chain_registry (module qualname : V)
    (subs : list (string * list (string * value))) :
  forall (parent : PyClass) (pm : list string),
    class_getattr parent "__ordered__" = Some (Names pm) ->
    exists cls, class_chain iterate module qualname parent subs = inr cls
      /\ class_getattr cls "__ordered__" = Some (Names (registry cls))
      /\ registry cls = pm ++ concat (map (fun nb => body_names nb.2) subs).
Proof.
  induction subs as [|[name body] subs IH]; intros parent pm Hp; simpl.
  - exists parent. split; [reflexivity|].
    rewrite app_nil_r. destruct (ordered_of_registry parent pm Hp) as [_ ->].
    now split.
  - unfold class_stmt.
    destruct (new_registry name [parent] (class_body module qualname body) pm)
      as (cls & -> & _ & Hc & _); [now apply ordered_of_registry|].
    destruct (IH cls _ Hc) as (cls' & -> & Hg & Hr).
    exists cls'. split; [reflexivity|]. split; [assumption|].
    now rewrite Hr, declared_class_body, <- app_assoc.
Qed.

(** C7 (amended): a class made by the metaclass with one base, at the
    end of a chain of such classes, has as its registry the registry of
    its base, which lists the names of the ancestors from the root
    down, then the names of its own body in the order of their first
    binding; whatever is picked from the registry in its order has the
    picks of the base first. *)
Theorem registry_base_first (module qualname : V)
    (root_name : string) (root_body : list (string * value))
    (ancestors : list (string * list (string * value)))
    (name : string) (body : list (string * value)) :
  exists root parent cls : PyClass,
    class_stmt iterate module qualname root_name [] root_body = inr root
    /\ class_chain iterate module qualname root ancestors = inr parent
    /\ class_stmt iterate module qualname name [parent] body = inr cls
    /\ registry parent
       = body_names root_body ++ concat (map (fun nb => body_names nb.2) ancestors)
    /\ registry cls = registry parent ++ body_names body
    /\ forall (P : string -> Prop) (HP : forall x, Decision (P x)),
         filter P (registry cls)
         = filter P (registry parent) ++ filter P (body_names body).
Proof.
  destruct (new_registry root_name [] (class_body module qualname root_body) [] eq_refl)
    as (root & Hroot & _ & Hr & _).
  rewrite declared_class_body in Hr. simpl in Hr.
  destruct (chain_registry module qualname ancestors root _ Hr)
    as (parent & Hparent & Hg & Hp).
  destruct (new_registry name [parent] (class_body module qualname body)
              (registry parent))
    as (cls & Hcls & _ & _ & Hc); [now apply ordered_of_registry|].
  rewrite declared_class_body in Hc.
  exists root, parent, cls. unfold class_stmt.
  repeat split; try assumption.
  intros P HP. now rewrite Hc, filter_app.
Qed.


End RegistryFacts.

(** ** The object type descriptors *)

(** C6 (amended): the text/plain URI of a program is [/source/main]; a
    package has none, and asking for it raises a [SAPCliError] that says
    the object does not support the plain 'text' format. *)
Theorem text_uri_program_and_package :
  get_uri_for_type Program.OBJTYPE "text/plain" = inr "/source/main"
  /\ exists msg : string,
       get_uri_for_type Package.OBJTYPE "text/plain" = inl (SAPCliError msg)
       /\ Str.str_in "does not support plain 'text' format" msg = true.
Proof.
  split; [vm_compute; reflexivity|].
  eexists. split; vm_compute; reflexivity.
Qed.

(** The message of that error is not the one the specification quotes. *)
Lemma package_text_uri_message :
  ~ (get_uri_for_type Program.OBJTYPE "text/plain" = inr "/source/main"
     /\ get_uri_for_type Package.OBJTYPE "text/plain"
        = inl (SAPCliError "unsupported text representation")).
Proof. intros [_ E]. vm_compute in E. discriminate. Qed.

Example class_text_uri :
  get_uri_for_type Class.OBJTYPE "text/plain" = inr "/source/main".
Proof. vm_compute. reflexivity. Qed.

(** ** The properties at work on sample data *)

Module Runs.
Import Sample.

(** A program is locked, unlocked and locked again through the
    connection of the unit tests. *)
Lemma lock_unlock_lock_run :
  lock (zfoo, mock3) = (after_lock, inr tt)
  /\ unlock after_lock = (after_unlock, inr tt)
  /\ _lock after_unlock.1 = None
  /\ after_unlock.1 = zfoo
  /\ (lock after_unlock).2 <> inl (SAPCliError (already_locked after_unlock.1)).
Proof.
  assert (H1 : lock (zfoo, mock3) = ((after_lock.1, after_lock.2), inr tt))
    by (vm_compute; reflexivity).
  assert (H2 : unlock (after_lock.1, after_lock.2)
               = ((after_unlock.1, after_unlock.2), inr tt))
    by (vm_compute; reflexivity).
  destruct (lock_unlock_lock zfoo after_lock.1 after_unlock.1
              mock3 after_lock.2 after_unlock.2
              mock_execute_not_cli H1 H2) as (R1 & R2 & R3 & _).
  split; [exact H1|]. split; [exact H2|]. split; [exact R1|].
  split; [exact R2 | exact R3].
Defined.

Lemma lock_state_guards_run :
  is_Some (_lock locked_zfoo)
  /\ lock (locked_zfoo, mock [])
     = ((locked_zfoo, mock []),
        inl (SAPCliError "Object programs/programs/zfoo: already locked"))
  /\ _lock zfoo = None
  /\ unlock (zfoo, mock [])
     = ((zfoo, mock []),
        inl (SAPCliError "Object programs/programs/zfoo: not locked")).
Proof.
  assert (HS : is_Some (_lock locked_zfoo)) by (eexists; reflexivity).
  split; [exact HS|].
  split; [exact (proj1 (lock_state_guards locked_zfoo (mock [])) HS)|].
  split; [reflexivity|].
  exact (proj2 (lock_state_guards zfoo (mock [])) eq_refl).
Defined.

(** The handle is read from a one-line answer of a scripted server,
    after the session was opened. *)
Lemma lock_handle_on_first_line_run :
  _lock zfoo = None
  /\ @post_lock _ wire zfoo fresh_wire
     = ((@post_lock _ wire zfoo fresh_wire).1, inr (lock_response one_line))
  /\ Str.str_in LOCK_RESULT_MARKER lock_content_type = true
  /\ Str.no_newline "<DATA>" = true
  /\ @lock _ wire (zfoo, fresh_wire)
     = ((locked_zfoo, (@post_lock _ wire zfoo fresh_wire).1), inr tt).
Proof.
  assert (H1 : @post_lock _ wire zfoo fresh_wire
               = ((@post_lock _ wire zfoo fresh_wire).1,
                  inr (lock_response one_line)))
    by (vm_compute; reflexivity).
  split; [reflexivity|]. split; [exact H1|].
  split; [vm_compute; reflexivity|]. split; [reflexivity|].
  apply (@lock_handle_on_first_line _ wire zfoo fresh_wire _
           (lock_response one_line) lock_content_type
           "<DATA>" "<CORRNR/></DATA>");
    [reflexivity | exact H1 | vm_compute; reflexivity..].
Defined.

(** C3: a lock response with the marker in its Content-Type whose text
    holds [<LOCK_HANDLE>XYZ123</LOCK_HANDLE>], as the only occurrence of
    the tag, should leave the lock token [XYZ123]. With a line break
    before the tag the pattern of [lock] finds nothing, although it is
    written to skip whatever comes before the tag: the subscript of the
    missing match raises [TypeError] and no token is stored. *)
Lemma lock_handle_after_line_break :
  _lock zfoo = None
  /\ headers (lock_response two_lines) !! "Content-Type" = Some lock_content_type
  /\ Str.str_in LOCK_RESULT_MARKER lock_content_type = true
  /\ Str.str_in "<LOCK_HANDLE>XYZ123</LOCK_HANDLE>" two_lines = true
  /\ Str.occurrences "<LOCK_HANDLE>" two_lines = 1%nat
  /\ Str.occurrences "</LOCK_HANDLE>" two_lines = 1%nat
  /\ post_lock zfoo (mock [lock_response two_lines])
     = ((post_lock zfoo (mock [lock_response two_lines])).1,
        inr (lock_response two_lines))
  /\ (lock (zfoo, mock [lock_response two_lines])).2
     = inl (TypeError "'NoneType' object is not subscriptable")
  /\ _lock (lock (zfoo, mock [lock_response two_lines])).1.1 = None.
Proof. repeat split; vm_compute; reflexivity. Qed.


Lemma activate_text_is_failure_run :
  activate (zfoo, mock [ok])
    = ((zfoo, (post_activation (activation_request zfoo (mock [ok])) (mock [ok])).1),
       inr tt)
  /\ exists msg : string,
       activate (zfoo, mock [plain_response])
       = ((zfoo, (post_activation (activation_request zfoo (mock [plain_response]))
                    (mock [plain_response])).1),
          inl (SAPCliError msg))
       /\ Str.str_in (text plain_response) msg = true.
Proof.
  assert (H1 : post_activation (activation_request zfoo (mock [ok])) (mock [ok])
               = ((post_activation (activation_request zfoo (mock [ok]))
                     (mock [ok])).1, inr ok))
    by (vm_compute; reflexivity).
  assert (H2 : post_activation (activation_request zfoo (mock [plain_response]))
                 (mock [plain_response])
               = ((post_activation (activation_request zfoo (mock [plain_response]))
                     (mock [plain_response])).1, inr plain_response))
    by (vm_compute; reflexivity).
  split.
  - apply (proj1 (activate_text_is_failure zfoo (mock [ok]) _ ok H1)).
    reflexivity.
  - apply (proj2 (activate_text_is_failure zfoo (mock [plain_response]) _
                    plain_response H2)).
    discriminate.
Defined.

(** A GET that the server answers with 404. *)
Lemma status_400_raises_run :
  (_execute_with_session scripted session0 "get" program_url None None None
     (net [inr not_found])).1
    = mkNet [] [prepare_request session0 "GET" program_url None None None] 0
  /\ (_execute_with_session scripted session0 "get" program_url None None None
        (net [inr not_found])).2
     = inl (HTTPRequestError
              (prepare_request session0 "GET" program_url None None None) not_found).
Proof.
  destruct (status_400_raises_else_returns scripted session0 "get" program_url
              None None None (net [inr not_found]) [] not_found eq_refl)
    as (R1 & R2 & _).
  split; [exact R1|]. apply R2. vm_compute. discriminate.
Defined.

(** Three reads of a program over a fresh connection: one discovery
    request, then one request per read, all in session 0. *)
Lemma one_session_run :
  let st := run_calls scripted ∅ [get_program; get_program]
              (run_call scripted ∅
                 (connection, net [inr discovery_response; inr ok; inr ok; inr ok])
                 get_program) in
  _session st.1
    = Some (mkSession 0 (Some (mkAuth "u" "p")) {[ "x-csrf-token" := "TOKEN" ]})
  /\ net_sessions st.2 = 1%nat
  /\ p_url <$> net_sent st.2
     = ["https://h:443/sap/bc/adt/core/discovery?sap-client=001&saml2=disabled";
        program_url; program_url; program_url].
Proof.
  destruct (one_session_per_connection scripted ∅ connection
              (net [inr discovery_response; inr ok; inr ok; inr ok])
              get_program [get_program; get_program]
              [inr ok; inr ok; inr ok] discovery_response "TOKEN"
              eq_refl eq_refl eq_refl eq_refl)
    as (_ & _ & _ & _ & R1 & _ & R2 & R3 & R4 & R5 & R6).
  cbv zeta. rewrite R4, R5, R6, R1, R2, R3.
  repeat split; vm_compute; reflexivity.
Defined.

(** The answer the mock gives when it is told nothing has no headers. *)
Example lock_on_default_mock :
  (lock (zfoo, Mock.Connection_init None)).2 = inl (KeyError "Content-Type").
Proof. vm_compute. reflexivity. Qed.

(** The registry of [Program]: the names of [ADTObject], then its own;
    the XML attributes come out in the order of declaration, those of
    [ADTObject] first. *)
Example program_registry :
  registry Program_class
  = ["__doc__"; "__init__"; "coredata"; "connection"; "objtype"; "package";
     "description"; "language"; "name"; "master_language"; "master_system";
     "responsible"; "uri"; "text"; "reference"; "create"; "lock"; "unlock";
     "activate";
     "__doc__"; "OBJTYPE"; "__init__"; "active"; "change_text"]
  /\ filter (fun x => x ∈ xml_attributes) (registry Program_class)
     = ["description"; "language"; "name"; "master_language"; "master_system";
        "responsible"; "active"].
Proof. split; vm_compute; reflexivity. Qed.


(** The first of two bases lists [a], the new class has the attribute
    [a], and its registry has no [a]. *)
Lemma first_base_members_missing :
  class_stmt no_iter tt tt "AB" [A; B] [def "c"] = inr AB
  /\ registry A = ["a"]
  /\ class_getattr AB "a" = Some (Obj tt)
  /\ registry AB = ["b"; "c"]
  /\ "a" ∉ registry AB.
Proof.
  repeat split; try (vm_compute; reflexivity).
  intros Hin. vm_compute in Hin.
  apply elem_of_cons in Hin as [Hin|Hin]; [discriminate|].
  apply list_elem_of_singleton in Hin. discriminate.
Qed.

End Runs.


(** ** More on the connection *)

Section ConnectionMore.

Context {Server : Type}.
Variable transmit : Server -> PreparedRequest -> Server * (string + Response).
Variable default_headers : gmap string string.

Local Abbreviation exchange := (_execute_with_session transmit).
Local Abbreviation exec := (execute transmit default_headers).
Local Abbreviation runs := (run_calls transmit default_headers).
Local Abbreviation discovery := (discovery_request default_headers).

(** What one exchange can end in. *)
Lemma exchange_outcome session method url params hdrs body (n : Net Server) :
  let req := prepare_request session (Str.upper method) url params hdrs body in
  let r := exchange session method url params hdrs body n in
  r.1 = mkNet (transmit (net_server n) req).1 (net_sent n ++ [req]) (net_sessions n)
  /\ match r.2 with
     | inr res => (transmit (net_server n) req).2 = inr res /\ status_code res < 400
     | inl e =>
         (exists msg, (transmit (net_server n) req).2 = inl msg
                      /\ e = RequestException msg)
         \/ (exists res, (transmit (net_server n) req).2 = inr res
                         /\ 400 <= status_code res
                         /\ e = HTTPRequestError req res)
     end.
Proof.
  unfold _execute_with_session, bind, send, raise, ret. cbv zeta beta.
  destruct (transmit _ _) as [srv [msg|res]]; simpl; [eauto|].
  destruct (400 <=? status_code res) eqn:E; simpl.
  - apply Z.leb_le in E. split; [reflexivity|]. right. eauto.
  - apply Z.leb_gt in E. auto.
Qed.

(** The first call on a connection, case by case. *)
Lemma execute_fresh (c : Connection) (n : Net Server)
    method adt_uri params hdrs body :
  _session c = None ->
  let s := mkSession (net_sessions n) (Some (_auth c)) default_headers in
  let n0 := mkNet (net_server n) (net_sent n) (S (net_sessions n)) in
  exec method adt_uri params hdrs body (c, n)
  = match exchange s "GET" (_build_adt_url c "core/discovery") None
                   (Some {[ "x-csrf-token" := "Fetch" ]}) None n0 with
    | (n1, inl e) => ((with_session c (Some s), n1), inl e)
    | (n1, inr d) =>
        match headers d !! "x-csrf-token" with
        | None => ((with_session c (Some s), n1), inl (KeyError "x-csrf-token"))
        | Some tok =>
            let s' := mkSession (net_sessions n) (Some (_auth c))
                                ({[ "x-csrf-token" := tok ]} ∪ default_headers) in
            let r := exchange s' method (_build_adt_url c adt_uri) params hdrs body n1 in
            ((with_session c (Some s'), r.1), r.2)
        end
    end.
Proof.
  intros Hs s n0.
  unfold execute, _get_session. unfold bind at 1 2. unfold get at 1. simpl.
  rewrite Hs. unfold bind, get, ret, raise, on_snd, set_session, modify, Session_new.
  simpl. fold s. fold n0.
  destruct (exchange s "GET" _ None _ None n0) as [n1 [e|d]]; [reflexivity|].
  destruct (headers d !! "x-csrf-token") as [tok|]; [|reflexivity].
  simpl.
  match goal with |- context [exchange ?s' method ?u params hdrs body n1] =>
    change (exchange s' method u params hdrs body n1)
      with (exchange (mkSession (net_sessions n) (Some (_auth c))
                        ({[ "x-csrf-token" := tok ]} ∪ default_headers))
              method (_build_adt_url c adt_uri) params hdrs body n1) end.
  destruct (exchange _ method _ params hdrs body n1); reflexivity.
Qed.

(** X1: [execute] returns responses with a status below 400 only; what
    it raises is the failure of the transport, an [HTTPRequestError] for
    a status of 400 or more with the request sent last, or, on a
    connection without a session, the [KeyError] of a discovery response
    that has no x-csrf-token. *)
Theorem execute_outcome (c : Connection) (n : Net Server)
    method adt_uri params hdrs body :
  match (exec method adt_uri params hdrs body (c, n)).2 with
  | inr res => status_code res < 400
  | inl e =>
      (exists msg, e = RequestException msg)
      \/ (exists req res,
            e = HTTPRequestError req res /\ 400 <= status_code res
            /\ last (net_sent (exec method adt_uri params hdrs body (c, n)).1.2)
               = Some req)
      \/ (e = KeyError "x-csrf-token" /\ _session c = None)
  end.
Proof.
  assert (Hx : forall s m u p h b n0,
             match (exchange s m u p h b n0).2 with
             | inr res => status_code res < 400
             | inl e =>
                 (exists msg, e = RequestException msg)
                 \/ (exists req res,
                       e = HTTPRequestError req res /\ 400 <= status_code res
                       /\ last (net_sent (exchange s m u p h b n0).1) = Some req)
                 \/ (e = KeyError "x-csrf-token" /\ _session c = None)
             end).
  { intros s m u p h b n0.
    destruct (exchange_outcome s m u p h b n0) as [H1 H2].
    destruct (exchange s m u p h b n0) as [n1 [e|res]]; simpl in *.
    - destruct H2 as [(msg & _ & ->)|(res & _ & Hst & ->)]; [eauto|].
      right. left. eexists _, _. split; [reflexivity|]. split; [assumption|].
      rewrite H1. simpl. apply last_snoc.
    - apply H2. }
  destruct (_session c) as [s|] eqn:Hs.
  - rewrite (execute_established transmit default_headers c s n _ _ _ _ _ Hs).
    cbv zeta. simpl. apply Hx.
  - rewrite (execute_fresh c n _ _ _ _ _ Hs). cbv zeta.
    match goal with |- context [exchange ?s "GET" ?u None ?h None ?n0] =>
      pose proof (Hx s "GET" u None h None n0) as Hd;
      destruct (exchange s "GET" u None h None n0) as [n1 [e|d]] end;
      simpl in *; [exact Hd|].
    destruct (headers d !! "x-csrf-token") as [tok|]; simpl; [apply Hx|].
    right. right. auto.
Qed.

(** X2: when the discovery request is answered with a status of 400 or
    more, the first [execute] raises [HTTPRequestError] for it and sends
    nothing else; the connection keeps the session it opened, with the
    headers it started with, and every later [execute] sends its own
    request in that session without asking for a token again. *)
Theorem discovery_refused (c : Connection) (n : Net Server) (first : Call)
    (srv : Server) (d : Response) :
  _session c = None ->
  transmit (net_server n) (discovery c (net_sessions n)) = (srv, inr d) ->
  400 <= status_code d ->
  let s := mkSession (net_sessions n) (Some (_auth c)) default_headers in
  exec (c_method first) (c_uri first) (c_params first) (c_headers first)
       (c_body first) (c, n)
  = ((with_session c (Some s),
      mkNet srv (net_sent n ++ [discovery c (net_sessions n)]) (S (net_sessions n))),
     inl (HTTPRequestError (discovery c (net_sessions n)) d))
  /\ forall (call : Call) (n' : Net Server),
       exists n'' : Net Server,
         run_call transmit default_headers (with_session c (Some s), n') call
         = (with_session c (Some s), n'')
         /\ net_sessions n'' = net_sessions n'
         /\ net_sent n'' = net_sent n' ++ [request_of c s call].
Proof.
  intros Hs Hd Hst s. split.
  - rewrite (execute_fresh c n _ _ _ _ _ Hs). cbv zeta.
    unfold _execute_with_session, bind, send, raise, ret. cbv zeta beta.
    change (prepare_request _ (Str.upper "GET") _ None _ None)
      with (discovery c (net_sessions n)).
    simpl net_server. rewrite Hd.
    destruct (400 <=? status_code d) eqn:E; [reflexivity|].
    apply Z.leb_gt in E. lia.
  - intros call n'.
    exact (run_call_established transmit default_headers
             (with_session c (Some s)) s n' call eq_refl).
Qed.

(** X3: when the discovery response has no x-csrf-token header, the
    first [execute] raises [KeyError] and the request it was called for
    is never sent; the session stays in place for the calls to come. *)
Theorem discovery_without_token (c : Connection) (n : Net Server) (first : Call)
    (srv : Server) (d : Response) :
  _session c = None ->
  transmit (net_server n) (discovery c (net_sessions n)) = (srv, inr d) ->
  status_code d < 400 ->
  headers d !! "x-csrf-token" = None ->
  let s := mkSession (net_sessions n) (Some (_auth c)) default_headers in
  exec (c_method first) (c_uri first) (c_params first) (c_headers first)
       (c_body first) (c, n)
  = ((with_session c (Some s),
      mkNet srv (net_sent n ++ [discovery c (net_sessions n)]) (S (net_sessions n))),
     inl (KeyError "x-csrf-token"))
  /\ forall (call : Call) (n' : Net Server),
       exists n'' : Net Server,
         run_call transmit default_headers (with_session c (Some s), n') call
         = (with_session c (Some s), n'')
         /\ net_sent n'' = net_sent n' ++ [request_of c s call].
Proof.
  intros Hs Hd Hst Htok s. split.
  - rewrite (execute_fresh c n _ _ _ _ _ Hs). cbv zeta.
    unfold _execute_with_session, bind, send, raise, ret. cbv zeta beta.
    change (prepare_request _ (Str.upper "GET") _ None _ None)
      with (discovery c (net_sessions n)).
    simpl net_server. rewrite Hd.
    destruct (400 <=? status_code d) eqn:E; [apply Z.leb_le in E; lia|].
    simpl. now rewrite Htok.
  - intros call n'.
    destruct (run_call_established transmit default_headers
                (with_session c (Some s)) s n' call eq_refl) as (n'' & H1 & _ & H2).
    eauto.
Qed.

(** The first call on a connection without a session sends the
    discovery request and at most one request more, and leaves a session. *)
Lemma first_call_sends (c : Connection) (n : Net Server) (call : Call) :
  _session c = None ->
  exists (s : Session) (n1 : Net Server) (more : list PreparedRequest),
    run_call transmit default_headers (c, n) call = (with_session c (Some s), n1)
    /\ net_sent n1 = net_sent n ++ discovery c (net_sessions n) :: more
    /\ (length more <= 1)%nat.
Proof.
  intros Hs. unfold run_call. rewrite (execute_fresh c n _ _ _ _ _ Hs). cbv zeta.
  match goal with |- context [exchange ?s "GET" ?u None ?h None ?n0] =>
    destruct (exchange_outcome s "GET" u None h None n0) as [Hd _];
    destruct (exchange s "GET" u None h None n0) as [n1 [e|d]] end;
    simpl in Hd.
  - eexists _, n1, []. split; [reflexivity|]. rewrite Hd. simpl. auto.
  - destruct (headers d !! "x-csrf-token") as [tok|].
    + match goal with |- context [exchange ?s' ?m ?u ?p ?h ?b n1] =>
        destruct (exchange_outcome s' m u p h b n1) as [Hr _];
        destruct (exchange s' m u p h b n1) as [n2 r2] end.
      simpl in Hr. eexists _, n2, [_]. split; [reflexivity|].
      rewrite Hr, Hd. simpl. rewrite <- app_assoc. auto.
    + eexists _, n1, []. split; [reflexivity|]. rewrite Hd. simpl. auto.
Qed.

(** X4: the requests a connection has sent are never taken back, and a
    series of calls sends one request per call, with one more for the
    discovery when the series starts without a session. *)
Theorem requests_per_call (calls : list Call) (c : Connection) (n : Net Server) :
  let st := runs calls (c, n) in
  net_sent n `prefix_of` net_sent st.2
  /\ (length (net_sent n) + length calls <= length (net_sent st.2))%nat
  /\ (length (net_sent st.2) <= length (net_sent n) + length calls + 1)%nat
  /\ (is_Some (_session c) ->
      length (net_sent st.2) = (length (net_sent n) + length calls)%nat).
Proof.
  cbv zeta. destruct (_session c) as [s|] eqn:Hs.
  - destruct (run_calls_established transmit default_headers calls c s n Hs)
      as (_ & _ & H3). cbv zeta in H3. rewrite H3.
    rewrite length_app, length_map.
    split; [now apply prefix_app_r|]. repeat split; lia.
  - destruct calls as [|call calls].
    + simpl. split; [reflexivity|].
      repeat split; try lia; try (intros [? ?]; discriminate).
    + unfold run_calls. simpl foldl.
      destruct (first_call_sends c n call Hs) as (s & n1 & more & -> & H1 & H2).
      destruct (run_calls_established transmit default_headers calls
                  (with_session c (Some s)) s n1 eq_refl) as (_ & _ & H3).
      cbv zeta in H3. unfold run_calls in H3. rewrite H3, H1.
      rewrite !length_app, length_map. simpl length.
      split; [rewrite <- app_assoc; now apply prefix_app_r|].
      repeat split; try lia; try (intros [? ?]; discriminate).
Qed.

(** X6: on a connection with a session, [get_text] sends one GET that
    asks for text/plain, whatever the session accepts by default; it
    returns the text of a response below 400 and raises
    [HTTPRequestError] otherwise. *)
Theorem get_text_request (c : Connection) (s : Session) (n : Net Server)
    (relativeuri : string) (srv : Server) (res : Response) :
  _session c = Some s ->
  transmit (net_server n)
           (prepare_request s "GET" (_build_adt_url c relativeuri) None
                            (Some {[ "Accept" := "text/plain" ]}) None)
    = (srv, inr res) ->
  let req := prepare_request s "GET" (_build_adt_url c relativeuri) None
                             (Some {[ "Accept" := "text/plain" ]}) None in
  let r := get_text transmit default_headers relativeuri (c, n) in
  p_headers req !! "Accept" = Some "text/plain"
  /\ r.1 = (c, mkNet srv (net_sent n ++ [req]) (net_sessions n))
  /\ (status_code res < 400 -> r.2 = inr (text res))
  /\ (400 <= status_code res -> r.2 = inl (HTTPRequestError req res)).
Proof.
  intros Hs Ht req r.
  split; [apply lookup_union_Some_l, lookup_singleton_eq|].
  unfold r, get_text, bind, ret.
  rewrite (execute_established transmit default_headers c s n _ _ _ _ _ Hs).
  cbv zeta.
  destruct (exchange_outcome s "GET" (_build_adt_url c relativeuri) None
              (Some {[ "Accept" := "text/plain" ]}) None n) as [R1 R2].
  change (prepare_request s (Str.upper "GET") (_build_adt_url c relativeuri) None
            (Some {[ "Accept" := "text/plain" ]}) None) with req in R1, R2.
  fold req in Ht.
  destruct (exchange s "GET" _ None _ None n) as [n1 [e|r1]];
    rewrite Ht in R1, R2; simpl in R1, R2; subst n1; simpl.
  - split; [reflexivity|].
    destruct R2 as [(msg & Hm & _)|(res' & [= <-] & Hge & ->)]; [discriminate|].
    split; [lia | reflexivity].
  - split; [reflexivity|]. destruct R2 as [[= <-] Hlt].
    split; [reflexivity | lia].
Qed.

(** X7: the text of an object whose kind has no text/plain format
    raises [SAPCliError] before the connection is used: no session is
    opened and nothing is sent; for a kind that has one, it is the
    [get_text] of the URI of the object followed by a slash and the
    format. *)
Theorem text_needs_format (o : ADTObject) (st : Connection * Net Server) :
  (_typeuris (objtype o) !! "text/plain" = None ->
   exists msg : string,
     ADTObject_text transmit default_headers o st = (st, inl (SAPCliError msg)))
  /\ (forall u : string,
        _typeuris (objtype o) !! "text/plain" = Some u ->
        ADTObject_text transmit default_headers o st
        = get_text transmit default_headers (obj_uri o +:+ "/" +:+ u) st).
Proof.
  unfold ADTObject_text, get_uri_for_type. split.
  - intros ->. eexists. reflexivity.
  - intros u ->. reflexivity.
Qed.

End ConnectionMore.


(** ** More on the lock handle pattern *)

Module ReMore.
Import Str Re StrFacts ReFacts.

Lemma strip_prefix_some (p s r : string) :
  strip_prefix p s = Some r -> s = p +:+ r.
Proof.
  revert s. induction p as [|a p IH]; intros s.
  - simpl. intros [= ->]. reflexivity.
  - destruct s as [|b s]; simpl; [discriminate|].
    destruct (decide (a = b)) as [->|]; [|discriminate].
    intros E. rewrite app_cons. f_equal. now apply IH.
Qed.

Lemma lit_some {A} (p s : string) (k : string -> option A) (x : A) :
  lit p s k = Some x -> exists r, s = p +:+ r /\ k r = Some x.
Proof.
  unfold lit. destruct (strip_prefix p s) as [r|] eqn:E; [|discriminate].
  intros Hk. exists r. split; [now apply strip_prefix_some | assumption].
Qed.

(** Where a run of any characters is followed by a match, the run holds
    no line break. *)
Lemma dots_some {A} (s : string) :
  forall (k : string -> string -> option A) (x : A),
    dots s k = Some x ->
    exists m r, s = m +:+ r /\ no_newline m = true /\ k m r = Some x.
Proof.
  induction s as [|c s IH]; intros k x; simpl.
  - intros E. exists EmptyString, EmptyString. auto.
  - destruct (is_newline c) eqn:Ec.
    + intros E. exists EmptyString, (String c s). auto.
    + destruct (dots s (fun m r => k (String c m) r)) as [y|] eqn:Ed.
      * intros [= <-]. apply IH in Ed as (m & r & -> & Hm & Hk).
        exists (String c m), r. split; [reflexivity|]. split; [|assumption].
        simpl. now rewrite Ec.
      * intros E. exists EmptyString, (String c s). auto.
Qed.

(** Where the rest of the pattern matches after some run without a line
    break, the whole matches. *)
Lemma dots_is_some {A} (s : string) :
  forall (k : string -> string -> option A) (m r : string),
    s = m +:+ r -> no_newline m = true -> is_Some (k m r) -> is_Some (dots s k).
Proof.
  induction s as [|c s IH]; intros k m r E Hm Hk.
  - destruct m; [|discriminate]. rewrite app_nil in E. subst r. exact Hk.
  - simpl. destruct m as [|x m]; rewrite ?app_cons, ?app_nil in E.
    + subst r. destruct (is_newline c); [exact Hk|].
      destruct (dots s _); [eauto | exact Hk].
    + injection E as -> ->. simpl in Hm. apply andb_true_iff in Hm as [Hx Hm].
      destruct (is_newline x); [discriminate|].
      destruct (IH (fun m r => k (String x m) r) m r eq_refl Hm Hk) as [y ->].
      eauto.
Qed.

(** The longest run after which the rest matches is the one taken. *)
Lemma dots_greedy {A} (s : string) :
  forall (k : string -> string -> option A) (a b : string) (x : A),
    s = a +:+ b -> no_newline a = true -> k a b = Some x ->
    (forall m r, m +:+ r = s -> (String.length a < String.length m)%nat ->
                 no_newline m = true -> k m r = None) ->
    dots s k = Some x.
Proof.
  induction s as [|c s IH]; intros k a b x E Ha Hx Hk.
  - destruct a; [|discriminate]. rewrite app_nil in E. now subst b.
  - simpl. destruct a as [|y a]; rewrite ?app_cons, ?app_nil in E.
    + subst b. destruct (is_newline c) eqn:Ec; [assumption|].
      rewrite dots_none_newline; [assumption|].
      intros m r Em Hm. apply Hk.
      * now rewrite app_cons, Em.
      * simpl. lia.
      * simpl. now rewrite Ec.
    + injection E as -> ->. simpl in Ha. apply andb_true_iff in Ha as [Hy Ha].
      destruct (is_newline y) eqn:Ec; [discriminate|].
      rewrite (IH (fun m r => k (String y m) r) a b x eq_refl Ha Hx);
        [reflexivity|].
      intros m r Em Hl Hm. apply Hk.
      * now rewrite app_cons, Em.
      * simpl. lia.
      * simpl. now rewrite Ec.
Qed.

Lemma str_in_app_r (sub d r : string) :
  str_in sub r = true -> str_in sub (d +:+ r) = true.
Proof.
  intros E. induction d as [|c d IH]; rewrite ?app_cons, ?app_nil; [assumption|].
  now apply str_in_cons.
Qed.

(** A longer first part of the same text reaches into the second part. *)
Lemma split_longer (a : string) :
  forall m r b : string,
    m +:+ r = a +:+ b -> (String.length a < String.length m)%nat ->
    exists (c : ascii) (d : string), b = String c (d +:+ r).
Proof.
  induction a as [|x a IH]; intros m r b E Hl.
  - destruct m as [|c m]; [simpl in Hl; lia|].
    rewrite app_cons, app_nil in E. subst b. eauto.
  - destruct m as [|c m]; [simpl in Hl; lia|].
    rewrite !app_cons in E. injection E as _ E.
    apply (IH m r b E). simpl in Hl. lia.
Qed.

Lemma no_start_in_tail (sub m r a b : string) :
  m +:+ r = a +:+ b -> (String.length a < String.length m)%nat ->
  str_in sub (str_tail b) = false -> startswith sub r = false.
Proof.
  intros E Hl Hb.
  destruct (split_longer a m r b E Hl) as (c & d & ->). simpl in Hb.
  destruct (startswith sub r) eqn:Er; [|reflexivity].
  rewrite (str_in_app_r sub d r (str_in_here sub r Er)) in Hb. discriminate.
Qed.

(** The handle of a match lies between an opening and a closing tag. *)
Lemma match_lock_handle_between (text h : string) :
  match_lock_handle text = Some h ->
  exists pre post : string,
    text = pre +:+ OPEN +:+ h +:+ CLOSE +:+ post
    /\ no_newline pre = true /\ no_newline h = true.
Proof.
  intros E. unfold match_lock_handle in E.
  apply dots_some in E as (pre & r1 & -> & Hpre & E).
  apply lit_some in E as (r2 & -> & E).
  apply dots_some in E as (g & r3 & -> & Hg & E).
  apply lit_some in E as (r4 & -> & E).
  rewrite dots_const in E. injection E as ->.
  exists pre, r4. auto.
Qed.

(** X8: the pattern matches exactly the texts that have, before their
    first line break, an opening tag and after it, before the next line
    break, a closing tag; the handle it gives lies between two such tags
    and holds no line break. *)
Theorem match_lock_handle_sound_complete (text : string) :
  (forall h : string,
      match_lock_handle text = Some h ->
      exists pre post : string,
        text = pre +:+ OPEN +:+ h +:+ CLOSE +:+ post
        /\ no_newline pre = true /\ no_newline h = true)
  /\ (is_Some (match_lock_handle text)
      <-> exists pre h post : string,
            text = pre +:+ OPEN +:+ h +:+ CLOSE +:+ post
            /\ no_newline pre = true /\ no_newline h = true).
Proof.
  split; [intros h; apply match_lock_handle_between|]. split.
  - intros [h E]. destruct (match_lock_handle_between text h E) as (pre & post & H).
    eauto.
  - intros (pre & h & post & -> & Hpre & Hh). unfold match_lock_handle.
    apply (dots_is_some _ _ pre (OPEN +:+ h +:+ CLOSE +:+ post) eq_refl Hpre).
    rewrite lit_app.
    apply (dots_is_some _ _ h (CLOSE +:+ post) eq_refl Hh).
    rewrite lit_app, dots_const. eauto.
Qed.

(** X9: of several tags before the first line break the last ones
    count: when no opening tag starts after the one at hand and no
    closing tag after the one that follows it, the handle is what lies
    between the two. *)
Theorem match_lock_handle_last_tags (pre h post : string) :
  no_newline pre = true ->
  no_newline h = true ->
  str_in OPEN (str_tail (OPEN +:+ h +:+ CLOSE +:+ post)) = false ->
  str_in CLOSE (str_tail (CLOSE +:+ post)) = false ->
  match_lock_handle (pre +:+ OPEN +:+ h +:+ CLOSE +:+ post) = Some h.
Proof.
  intros Hpre Hh HO HC. unfold match_lock_handle.
  apply (dots_greedy _ _ pre (OPEN +:+ h +:+ CLOSE +:+ post) h eq_refl Hpre).
  - rewrite lit_app.
    apply (dots_greedy _ _ h (CLOSE +:+ post) h eq_refl Hh).
    + rewrite lit_app. apply dots_const.
    + intros m r E Hl _. apply lit_none.
      now apply (no_start_in_tail CLOSE m r h (CLOSE +:+ post)).
  - intros m r E Hl _. apply lit_none.
    now apply (no_start_in_tail OPEN m r pre (OPEN +:+ h +:+ CLOSE +:+ post)).
Qed.

End ReMore.


(** ** More on lock, unlock and activate *)

Section ADTObjectMore.

Context {C : Type} `{ConnectionLike C}.

(** X10: a call that raises leaves the object as it was: [lock] and
    [unlock] change the lock token only when they return, and [activate]
    changes nothing of the object whatever the connection does. *)
Theorem raising_changes_nothing (o : ADTObject) (c : C) :
  (forall e : exn, (lock (o, c)).2 = inl e -> (lock (o, c)).1.1 = o)
  /\ (forall e : exn, (unlock (o, c)).2 = inl e -> (unlock (o, c)).1.1 = o)
  /\ (activate (o, c)).1.1 = o.
Proof.
  split; [|split].
  - intros e. destruct (_lock o) as [h|] eqn:E.
    + now rewrite (lock_when_locked o c h E).
    + rewrite (lock_when_unlocked o c E).
      destruct (post_lock o c) as [c' [e'|resp]]; [reflexivity|].
      destruct (headers resp !! "Content-Type") as [ct|]; [|reflexivity].
      destruct (Str.str_in LOCK_RESULT_MARKER ct); [|reflexivity].
      destruct (Re.match_lock_handle (text resp)); [discriminate | reflexivity].
  - intros e. destruct (_lock o) as [h|] eqn:E.
    + rewrite (unlock_when_locked o c h E).
      destruct (post_unlock o h c) as [c' [e'|resp]]; [reflexivity | discriminate].
    + now rewrite (unlock_when_unlocked o c E).
  - unfold activate, bind, get, ret, raise, on_snd. simpl.
    destruct (post_activation _ c) as [c' [e'|resp]]; [reflexivity|].
    now destruct (text resp).
Qed.

(** X11: when [lock] returns, the server answered with the marker in
    its Content-Type and the token is a handle the text holds between an
    opening and a closing tag, without a line break in it or before it;
    nothing but the token differs in the object. *)
Theorem lock_postcondition (o o1 : ADTObject) (c c1 : C) :
  lock (o, c) = ((o1, c1), inr tt) ->
  exists (resp : Response) (ct h pre post : string),
    post_lock o c = (c1, inr resp)
    /\ headers resp !! "Content-Type" = Some ct
    /\ Str.str_in LOCK_RESULT_MARKER ct = true
    /\ text resp = pre +:+ Re.OPEN +:+ h +:+ Re.CLOSE +:+ post
    /\ Str.no_newline pre = true /\ Str.no_newline h = true
    /\ _lock o = None /\ o1 = with_lock o (Some h).
Proof.
  intros E. destruct (_lock o) as [h0|] eqn:E0.
  - rewrite (lock_when_locked o c h0 E0) in E. discriminate.
  - rewrite (lock_when_unlocked o c E0) in E.
    destruct (post_lock o c) as [c' [e'|resp]]; [discriminate|].
    destruct (headers resp !! "Content-Type") as [ct|] eqn:Ect; [|discriminate].
    destruct (Str.str_in LOCK_RESULT_MARKER ct) eqn:Em; [|discriminate].
    destruct (Re.match_lock_handle (text resp)) as [h|] eqn:Eh; [|discriminate].
    injection E as <- <-.
    destruct (ReMore.match_lock_handle_between (text resp) h Eh)
      as (pre & post & Ht & Hpre & Hh).
    exists resp, ct, h, pre, post. auto 10.
Qed.

(** X12: [unlock] presents the handle [lock] stored: after a [lock]
    that returned, [unlock] posts that handle; if the connection raises,
    the object stays locked with it, and if the post returns, the object
    is the one from before the lock. *)
Theorem unlock_presents_handle (o o1 : ADTObject) (c c1 : C) :
  lock (o, c) = ((o1, c1), inr tt) ->
  exists h : string,
    _lock o1 = Some h
    /\ unlock (o1, c1)
       = match post_unlock o h c1 with
         | (c2, inl e) => ((o1, c2), inl e)
         | (c2, inr _) => ((o, c2), inr tt)
         end.
Proof.
  intros E. apply lock_succeeded in E as [E0 [h ->]].
  exists h. split; [reflexivity|].
  rewrite (unlock_when_locked (with_lock o (Some h)) c1 h eq_refl).
  change (post_unlock (with_lock o (Some h)) h c1) with (post_unlock o h c1).
  destruct (post_unlock o h c1) as [c2 [e|resp]]; [reflexivity|].
  do 2 f_equal. destruct o; simpl in *. now subst.
Qed.

End ADTObjectMore.

(** ** More on the connection of the unit tests *)

Lemma mock_call_step (call : Call) (ex : list Mock.Request) (rs : list Response) :
  mock_call call (Mock.mkConnection ex rs)
  = (Mock.mkConnection (ex ++ [mock_request call]) (tail rs),
     match rs with
     | [] => inl StopIteration
     | r :: _ => inr r
     end).
Proof. destruct rs; reflexivity. Qed.

(** X14: the mock writes every call down, in order and also when it has
    no response left; it hands its responses out in order and raises
    [StopIteration] from then on. *)
Theorem mock_answers_in_order (calls : list Call) :
  forall (ex : list Mock.Request) (rs : list Response),
    attempt_all (mock_call <$> calls) (Mock.mkConnection ex rs)
    = (Mock.mkConnection (ex ++ (mock_request <$> calls)) (drop (length calls) rs),
       (inr <$> take (length calls) rs)
       ++ replicate (length calls - length rs) (inl StopIteration)).
Proof.
  induction calls as [|call calls IH]; intros ex rs.
  - simpl. now rewrite app_nil_r, drop_0.
  - rewrite fmap_cons. simpl attempt_all. rewrite mock_call_step, IH.
    rewrite fmap_cons, <- app_assoc. destruct rs as [|r rs].
    + simpl tail. rewrite !drop_nil, !take_nil. simpl length.
      rewrite !Nat.sub_0_r. reflexivity.
    + reflexivity.
Qed.

(** X15: a lock and an unlock through the mock are two POSTs to the
    object, the first with the LOCK action and the second with the
    UNLOCK action and the handle of the first response; the object is
    unlocked again. *)
Theorem mock_lock_unlock_log (o : ADTObject) (ex : list Mock.Request)
    (r1 r2 : Response) (rest : list Response) (ct h : string) :
  _lock o = None ->
  headers r1 !! "Content-Type" = Some ct ->
  Str.str_in LOCK_RESULT_MARKER ct = true ->
  Re.match_lock_handle (text r1) = Some h ->
  unlock (lock (o, Mock.mkConnection ex (r1 :: r2 :: rest))).1
  = ((o, Mock.mkConnection
           (ex ++ [Mock.mkRequest "POST" ("/sap/bc/adt/" +:+ obj_uri o)
                     (Some lock_headers) None
                     (Some [("_action", "LOCK"); ("accessMode", "MODIFY")]);
                   Mock.mkRequest "POST" ("/sap/bc/adt/" +:+ obj_uri o)
                     (Some unlock_headers) None
                     (Some [("_action", "UNLOCK"); ("lockHandle", h)])])
           rest),
     inr tt).
Proof.
  intros E0 Ect Em Eh.
  rewrite (lock_when_unlocked o _ E0).
  unfold post_lock. simpl conn_execute. unfold Mock.execute at 1.
  simpl Mock._resp_iter. cbv iota beta. rewrite Ect, Em, Eh. simpl fst.
  rewrite (unlock_when_locked (with_lock o (Some h)) _ h eq_refl).
  unfold post_unlock. simpl conn_execute. unfold Mock.execute.
  simpl Mock._resp_iter. cbv iota beta. simpl Mock.execs.
  rewrite <- app_assoc. f_equal. f_equal.
  destruct o; simpl in *. now subst.
Qed.


(** ** More on the registry of members *)

Section RegistryMore.

Context {V : Type}.
Variable iterate : V -> exn + list string.

Lemma first_seen_elem (names : list string) :
  forall (seen : list string) (x : string),
    x ∈ first_seen seen names <-> x ∈ names /\ x ∉ seen.
Proof.
  induction names as [|y names IH]; intros seen x; simpl.
  - rewrite !elem_of_nil. tauto.
  - destruct (bool_decide (y ∈ seen)) eqn:E.
    + apply bool_decide_eq_true in E. rewrite IH, elem_of_cons.
      split; [tauto|]. intros [[->|Hx] Hs]; [contradiction | tauto].
    + apply bool_decide_eq_false in E.
      rewrite !elem_of_cons, IH, elem_of_app, list_elem_of_singleton.
      split.
      * intros [->|[Hx Hs]]; [tauto|]. split; [tauto|]. tauto.
      * intros [[->|Hx] Hs]; [tauto|].
        destruct (decide (x = y)); [tauto|]. right. tauto.
Qed.

Lemma first_seen_nodup (names : list string) :
  forall seen : list string, NoDup (first_seen seen names).
Proof.
  induction names as [|y names IH]; intros seen; simpl; [constructor|].
  destruct (bool_decide (y ∈ seen)); [apply IH|].
  constructor; [|apply IH].
  intros Hy. apply first_seen_fresh in Hy. apply Hy, elem_of_app. right. left.
Qed.

(** X16: a class without bases lists every name its body binds, once,
    however often the body binds it; the two names the interpreter binds
    are not listed. *)
Theorem own_names_listed_once (module qualname : V) (name : string)
    (body : list (string * value V)) :
  exists cls : PyClass V,
    class_stmt iterate module qualname name [] body = inr cls
    /\ NoDup (registry cls)
    /\ forall x : string,
         x ∈ registry cls
         <-> x ∈ body.*1 /\ x <> "__module__" /\ x <> "__qualname__".
Proof.
  destruct (new_registry iterate name [] (class_body module qualname body) [] eq_refl)
    as (cls & Hcls & _ & _ & Hr).
  rewrite declared_class_body in Hr. simpl in Hr.
  exists cls. split; [exact Hcls|]. rewrite Hr. unfold body_names.
  split; [apply first_seen_nodup|].
  intros x. rewrite first_seen_elem, !elem_of_cons, elem_of_nil. tauto.
Qed.

(** X17: a name of the registry of the base that the body of the
    subclass binds again is listed twice in the registry of the
    subclass, once where the base has it and once among the names of the
    subclass. *)
Theorem overridden_listed_twice (module qualname : V) (name : string)
    (parent : PyClass V) (body : list (string * value V))
    (pm : list string) (x : string) :
  class_getattr parent "__ordered__" = Some (Names pm) ->
  x ∈ pm ->
  x ∈ body.*1 ->
  x <> "__module__" -> x <> "__qualname__" ->
  exists (cls : PyClass V) (l1 l2 l3 l4 : list string),
    class_stmt iterate module qualname name [parent] body = inr cls
    /\ pm = l1 ++ x :: l2
    /\ body_names body = l3 ++ x :: l4
    /\ registry cls = l1 ++ x :: l2 ++ l3 ++ x :: l4.
Proof.
  intros Hp Hx Hb Hm Hq.
  destruct (new_registry iterate name [parent] (class_body module qualname body) pm)
    as (cls & Hcls & _ & _ & Hr); [now apply ordered_of_registry|].
  rewrite declared_class_body in Hr.
  apply list_elem_of_split in Hx as (l1 & l2 & Hpm).
  assert (Hx' : x ∈ body_names body).
  { unfold body_names. rewrite first_seen_elem, !elem_of_cons, elem_of_nil. tauto. }
  apply list_elem_of_split in Hx' as (l3 & l4 & Hbn).
  exists cls, l1, l2, l3, l4. split; [exact Hcls|]. split; [exact Hpm|].
  split; [exact Hbn|]. rewrite Hr, Hpm, Hbn, <- app_assoc. reflexivity.
Qed.


End RegistryMore.

(** ** The URLs of a connection *)

(** X19: a connection made without a port uses 443 with SSL and 80
    without; every URL it builds is the protocol, the host, the port,
    the ADT path and the given fragment, followed by the client and the
    switch that turns SAML off. *)
Theorem connection_urls (host client user pass : string) :
  Connection_init host client user pass None true
  = Connection_init host client user pass (Some "443") true
  /\ Connection_init host client user pass None false
     = Connection_init host client user pass (Some "80") false
  /\ forall (port : option string) (ssl : bool) (adt_uri : string),
       _build_adt_url (Connection_init host client user pass port ssl) adt_uri
       = (if ssl then "https" else "http") +:+ "://" +:+ host +:+ ":"
         +:+ default (if ssl then "443" else "80") port
         +:+ "/sap/bc/adt/" +:+ adt_uri
         +:+ "?sap-client=" +:+ client +:+ "&saml2=disabled".
Proof.
  split; [reflexivity|]. split; [reflexivity|].
  intros port ssl adt_uri. unfold _build_adt_url, Connection_init.
  destruct ssl; simpl; rewrite !StrFacts.app_assoc; reflexivity.
Qed.

(** ** More properties at work on sample data *)

Module Runs2.
Import Sample Sample2.

(** The server refuses the discovery request: one request goes out. *)
Lemma discovery_refused_run :
  _session connection = None
  /\ 400 <= status_code refused
  /\ execute scripted ∅ "GET" "programs/programs/zfoo" None None None
       (connection, net [inr refused; inr source])
     = ((with_session connection (Some (mkSession 0 (Some (mkAuth "u" "p")) ∅)),
         mkNet [inr source] [discovery_request ∅ connection 0] 1),
        inl (HTTPRequestError (discovery_request ∅ connection 0) refused)).
Proof.
  split; [reflexivity|]. split; [vm_compute; discriminate|].
  refine (proj1 (discovery_refused scripted ∅ connection
                   (net [inr refused; inr source]) get_program
                   [inr source] refused eq_refl eq_refl _)).
  vm_compute. discriminate.
Defined.

(** The discovery response carries no token. *)
Lemma discovery_without_token_run :
  _session connection = None
  /\ headers no_token !! "x-csrf-token" = None
  /\ execute scripted ∅ "GET" "programs/programs/zfoo" None None None
       (connection, net [inr no_token; inr source])
     = ((with_session connection (Some (mkSession 0 (Some (mkAuth "u" "p")) ∅)),
         mkNet [inr source] [discovery_request ∅ connection 0] 1),
        inl (KeyError "x-csrf-token")).
Proof.
  split; [reflexivity|]. split; [reflexivity|].
  refine (proj1 (discovery_without_token scripted ∅ connection
                   (net [inr no_token; inr source]) get_program
                   [inr source] no_token eq_refl eq_refl _ eq_refl)).
  vm_compute. reflexivity.
Defined.

(** The source of a program is read in a session that accepts anything
    by default. *)
Lemma get_text_run :
  _session live = Some live_session
  /\ sess_headers live_session !! "Accept" = Some "*/*"
  /\ (get_text scripted ∅ "programs/programs/zfoo/source/main"
        (live, net [inr source])).2 = inr "REPORT zfoo."
  /\ p_headers <$> net_sent
       (get_text scripted ∅ "programs/programs/zfoo/source/main"
          (live, net [inr source])).1.2
     = [{[ "Accept" := "text/plain"; "x-csrf-token" := "TOKEN" ]}].
Proof.
  split; [reflexivity|]. split; [vm_compute; reflexivity|].
  destruct (get_text_request scripted ∅ live live_session (net [inr source])
              "programs/programs/zfoo/source/main" [] source eq_refl eq_refl)
    as (_ & R1 & R2 & _).
  split.
  - apply R2. vm_compute. reflexivity.
  - rewrite R1. vm_compute. reflexivity.
Defined.

(** Of two handles on one line the second is taken. *)
Lemma last_tags_run :
  Str.no_newline "<LOCK_HANDLE>A</LOCK_HANDLE>" = true
  /\ Re.match_lock_handle two_handles = Some "B".
Proof.
  split; [reflexivity|].
  apply (ReMore.match_lock_handle_last_tags
           "<LOCK_HANDLE>A</LOCK_HANDLE>" "B" EmptyString);
    vm_compute; reflexivity.
Defined.

Lemma lock_postcondition_run :
  lock (zfoo, mock3) = (after_lock, inr tt)
  /\ exists (resp : Response) (ct h pre post : string),
       post_lock zfoo mock3 = (after_lock.2, inr resp)
       /\ headers resp !! "Content-Type" = Some ct
       /\ Str.str_in LOCK_RESULT_MARKER ct = true
       /\ text resp = pre +:+ Re.OPEN +:+ h +:+ Re.CLOSE +:+ post
       /\ Str.no_newline pre = true /\ Str.no_newline h = true
       /\ _lock zfoo = None /\ after_lock.1 = with_lock zfoo (Some h).
Proof.
  assert (H1 : lock (zfoo, mock3) = ((after_lock.1, after_lock.2), inr tt))
    by (vm_compute; reflexivity).
  split; [exact H1|].
  exact (lock_postcondition zfoo after_lock.1 mock3 after_lock.2 H1).
Defined.

Lemma unlock_presents_handle_run :
  lock (zfoo, mock3) = (after_lock, inr tt)
  /\ exists h : string,
       _lock after_lock.1 = Some h
       /\ unlock (after_lock.1, after_lock.2)
          = match post_unlock zfoo h after_lock.2 with
            | (c2, inl e) => ((after_lock.1, c2), inl e)
            | (c2, inr _) => ((zfoo, c2), inr tt)
            end.
Proof.
  assert (H1 : lock (zfoo, mock3) = ((after_lock.1, after_lock.2), inr tt))
    by (vm_compute; reflexivity).
  split; [exact H1|].
  exact (unlock_presents_handle zfoo after_lock.1 mock3 after_lock.2 H1).
Defined.

Lemma mock_lock_unlock_log_run :
  Re.match_lock_handle one_line = Some "XYZ123"
  /\ Mock.execs (unlock (lock (zfoo, mock [lock_response one_line; ok])).1).1.2
     = [Mock.mkRequest "POST" "/sap/bc/adt/programs/programs/zfoo"
          (Some lock_headers) None
          (Some [("_action", "LOCK"); ("accessMode", "MODIFY")]);
        Mock.mkRequest "POST" "/sap/bc/adt/programs/programs/zfoo"
          (Some unlock_headers) None
          (Some [("_action", "UNLOCK"); ("lockHandle", "XYZ123")])].
Proof.
  assert (Hh : Re.match_lock_handle one_line = Some "XYZ123")
    by (vm_compute; reflexivity).
  split; [exact Hh|].
  assert (Hm : Str.str_in LOCK_RESULT_MARKER lock_content_type = true)
    by (vm_compute; reflexivity).
  assert (Hc : headers (lock_response one_line) !! "Content-Type"
               = Some lock_content_type) by (vm_compute; reflexivity).
  pose proof (mock_lock_unlock_log zfoo [] (lock_response one_line) ok []
                lock_content_type "XYZ123" eq_refl Hc Hm Hh) as R.
  change (mock [lock_response one_line; ok])
    with (Mock.mkConnection [] [lock_response one_line; ok]).
  rewrite R. reflexivity.
Defined.

(** [Program] binds [__init__] again: the registry has it twice. *)
Lemma overridden_listed_twice_run :
  "__init__" ∈ registry ADTObject_class
  /\ "__init__" ∈ Program_body.*1
  /\ exists (cls : PyClass unit) (l1 l2 l3 l4 : list string),
       class_stmt no_iter tt tt "Program" [ADTObject_class] Program_body = inr cls
       /\ registry ADTObject_class = l1 ++ "__init__" :: l2
       /\ body_names Program_body = l3 ++ "__init__" :: l4
       /\ registry cls = l1 ++ "__init__" :: l2 ++ l3 ++ "__init__" :: l4.
Proof.
  assert (H1 : "__init__" ∈ registry ADTObject_class)
    by (vm_compute; right; left).
  assert (H2 : "__init__" ∈ Program_body.*1)
    by (vm_compute; right; right; left).
  split; [exact H1|]. split; [exact H2|].
  apply (overridden_listed_twice no_iter tt tt "Program" ADTObject_class
           Program_body (registry ADTObject_class) "__init__");
    [vm_compute; reflexivity | exact H1 | exact H2 | discriminate | discriminate].
Defined.


End Runs2.
